(** * Schneider gateway API: session handling and command translation

    A shallow embedding of [app/core/backend.py] (class
    [SchneiderGatewayBackend]) and of the two device routes of
    [app/api/routes.py], together with the validity probe of the
    stand-alone script [schneider_gateway_fastapi.py], which differs from the
    one of the application.

    The gateway, the clock and the configuration file are the environment of
    the program.  The gateway and the clock are an oracle ([World]); every
    HTTP request the program sends is appended to a trace, so that statements
    such as "no RPC request is sent" or "exactly one login attempt" are
    statements about that trace.  Python exceptions are an explicit error
    result.  The file system is taken to be reliable: [load_config] and
    [save_config] only log and re-raise I/O errors, and no such error is
    produced here.  Logging is not modelled.  A "success status" is status
    200, the only one the code accepts. *)

From Stdlib Require Import ZArith NArith Ascii String Lia.
From stdpp Require Import base option strings gmap list pretty.

Local Open Scope Z_scope.
Local Open Scope string_scope.
Local Open Scope list_scope.

(** ** JSON values, HTTP requests and responses *)

#[warnings="-register-all"]
Inductive Json : Type :=
| JNull
| JBool (b : bool)
| JInt (z : Z)
| JStr (s : string)
| JList (items : list Json)
| JObj (fields : list (string * Json)).

(** [d[key]] on a dict literal, kept in insertion order. *)
Fixpoint jlookup (key : string) (fields : list (string * Json)) : option Json :=
  match fields with
  | [] => None
  | (k, v) :: rest => if String.eqb k key then Some v else jlookup key rest
  end.

Definition jget (key : string) (j : Json) : option Json :=
  match j with
  | JObj fields => jlookup key fields
  | _ => None
  end.

Inductive Verb : Type := GET | POST.

Record Request : Type := mkRequest {
  verb : Verb;
  url : string;
  headers : list (string * string);
  payload : option Json
}.

(** What [response.json()] gives: the decoded body, or a
    [requests.exceptions.JSONDecodeError], which is a [RequestException]. *)
Inductive Body : Type :=
| Decoded (j : Json)
| Undecodable (msg : string).

Record Response : Type := mkResponse {
  status_code : Z;
  cookies : gmap string string;
  body : Body
}.

(** A call of [requests.get] / [requests.post] returns a response or raises a
    [requests.RequestException] (connection refused, timeout, ...). *)
Inductive Outcome : Type :=
| Responded (r : Response)
| ConnectionFailed (msg : string).

(** ** Exceptions *)

Inductive Exn : Type :=
| HTTPException (status : Z) (detail : string)
| RequestException (msg : string)
| KeyError (key : string).

(** [str(e)]; the keys of this program's [KeyError]s are identifiers, whose
    [repr] is the key between single quotes. *)
Definition str_exn (e : Exn) : string :=
  match e with
  | HTTPException _ detail => detail
  | RequestException msg => msg
  | KeyError key => "'" +:+ key +:+ "'"
  end.

Inductive Result (A : Type) : Type :=
| Ok (a : A)
| Raise (e : Exn).
Arguments Ok {A} a.
Arguments Raise {A} e.

(** ** Configuration (config.yaml) *)

Record DeviceConfig : Type := mkDevice {
  location : string;
  type : string;
  entity : Json;
  ir_codes : option (gmap string (list Z))
}.

Record Config : Type := mkConfig {
  gateway_ip : string;
  cfg_username : string;
  cfg_password : string;
  cfg_cookie : option string;
  devices : gmap string DeviceConfig
}.

(** The attributes of a [SchneiderGatewayBackend] object. *)
Record Backend : Type := mkBackend {
  config_file : string;
  config : Config;
  base_url : string;
  cookie : string;
  username : string;
  password : string
}.

(** ** The environment *)

(** [gateway w n r] is the outcome of request [r] when it is the [n]-th
    request (from 0) of the run; [clock w n] is [int(time.time())] read when
    [n] requests have been sent. *)
Record World : Type := mkWorld {
  gateway : nat -> Request -> Outcome;
  clock : nat -> Z
}.

Record State : Type := mkState {
  self : Backend;
  disk : Config;
  sent : list Request
}.

(** ** A reader / state / exception monad for the methods *)

Definition M (A : Type) : Type := World -> State -> Result A * State.

Definition ret {A} (a : A) : M A := fun _ s => (Ok a, s).

Definition bind {A B} (m : M A) (k : A -> M B) : M B :=
  fun w s =>
    match m w s with
    | (Ok a, s') => k a w s'
    | (Raise e, s') => (Raise e, s')
    end.

Definition raise {A} (e : Exn) : M A := fun _ s => (Raise e, s).

(** [try: m except requests.RequestException as e: h e]; every other
    exception passes through. *)
Definition try_except_RequestException {A} (m : M A) (h : string -> M A) : M A :=
  fun w s =>
    match m w s with
    | (Raise (RequestException msg), s') => h msg w s'
    | r => r
    end.

Declare Scope py_scope.
Delimit Scope py_scope with py.
Notation "x <- m ;; k" := (bind m (fun x => k))
  (at level 100, m at next level, right associativity) : py_scope.
Notation "m ;;; k" := (bind m (fun _ => k))
  (at level 100, right associativity) : py_scope.
Local Open Scope py_scope.

Definition get_self : M Backend := fun _ s => (Ok (self s), s).

Definition set_self (b : Backend) : M unit :=
  fun _ s => (Ok tt, mkState b (disk s) (sent s)).

Definition time_time : M Z := fun w s => (Ok (clock w (length (sent s))), s).

Definition send (r : Request) : M Response :=
  fun w s =>
    let s' := mkState (self s) (disk s) (sent s ++ [r]) in
    match gateway w (length (sent s)) r with
    | Responded resp => (Ok resp, s')
    | ConnectionFailed msg => (Raise (RequestException msg), s')
    end.

Definition requests_get (u : string) (hs : list (string * string)) : M Response :=
  send (mkRequest GET u hs None).

Definition requests_post (u : string) (hs : list (string * string)) (j : Json)
  : M Response :=
  send (mkRequest POST u hs (Some j)).

Definition response_json (r : Response) : M Json :=
  match body r with
  | Decoded j => ret j
  | Undecodable msg => raise (RequestException msg)
  end.

(** ** app/core/config.py *)

Definition load_config : M Config := fun _ s => (Ok (disk s), s).

Definition save_config (c : Config) : M unit :=
  fun _ s => (Ok tt, mkState (self s) c (sent s)).

(** ** base64.b64encode *)

Definition b64_alphabet : string :=
  "ABCDEFGHIJKLMNOPQRSTUVWXYZabcdefghijklmnopqrstuvwxyz0123456789+/".

Definition b64_digit (n : N) : ascii :=
  default "="%char (String.get (N.to_nat n) b64_alphabet).

Fixpoint b64_groups (bytes : list N) : list ascii :=
  match bytes with
  | [] => []
  | [a] =>
      [b64_digit (a / 4); b64_digit ((a mod 4) * 16); "="%char; "="%char]
  | [a; b] =>
      [b64_digit (a / 4); b64_digit ((a mod 4) * 16 + b / 16);
       b64_digit ((b mod 16) * 4); "="%char]
  | a :: b :: c :: rest =>
      b64_digit (a / 4) :: b64_digit ((a mod 4) * 16 + b / 16)
      :: b64_digit ((b mod 16) * 4 + c / 64) :: b64_digit (c mod 64)
      :: b64_groups rest
  end%N.

Definition b64encode (s : string) : string :=
  string_of_list_ascii
    (b64_groups (map N_of_ascii (list_ascii_of_string s))).

(** ** app/core/backend.py *)

Module Core.

(** [__init__]: the configuration is read once; the cookie defaults to the
    empty string when the file has none. *)
Definition init (file : string) : M unit :=
  cfg <- load_config ;;
  set_self
    {| config_file := file;
       config := cfg;
       base_url := "http://" +:+ gateway_ip cfg;
       cookie := default "" (cfg_cookie cfg);
       username := cfg_username cfg;
       password := cfg_password cfg |}.

Definition get_auth_header (b : Backend) : list (string * string) :=
  let auth := b64encode (username b +:+ ":" +:+ password b) in
  [("Authorization", "Basic " +:+ auth)].

Definition is_cookie_valid : M bool :=
  b <- get_self ;;
  let url := base_url b +:+ "/home.html" in
  let headers := ("Cookie", "user_id=" +:+ cookie b) :: get_auth_header b in
  try_except_RequestException
    (response <- requests_get url headers ;;
     ret (Z.eqb (status_code response) 200))
    (fun _ => ret false).

(** [self.cookie = c; self.config['cookie'] = self.cookie]. *)
Definition assign_cookie (c : string) (b : Backend) : Backend :=
  {| config_file := config_file b;
     config :=
       {| gateway_ip := gateway_ip (config b);
          cfg_username := cfg_username (config b);
          cfg_password := cfg_password (config b);
          cfg_cookie := Some c;
          devices := devices (config b) |};
     base_url := base_url b;
     cookie := c;
     username := username b;
     password := password b |}.

Definition login : M unit :=
  b <- get_self ;;
  let url := base_url b +:+ "/cgi-bin/admin" in
  let headers := get_auth_header b in
  try_except_RequestException
    (response <- requests_get url headers ;;
     if Z.eqb (status_code response) 200 then
       set_self (assign_cookie (default "" (cookies response !! "user_id")) b) ;;;
       b' <- get_self ;;
       save_config (config b')
     else
       raise (HTTPException 401 "Login failed"))
    (fun e => raise (HTTPException 500 ("Login request failed: " +:+ e))).

(** The first three lines of both device operations. *)
Definition ensure_session : M unit :=
  valid <- is_cookie_valid ;;
  if negb valid then login else ret tt.

(** [self.config['devices'].get(device_name)] followed by the 404 guard. *)
Definition lookup_device (device_name : string) : M DeviceConfig :=
  b <- get_self ;;
  match devices (config b) !! device_name with
  | Some device_config => ret device_config
  | None =>
      raise (HTTPException 404
               ("Device " +:+ device_name +:+ " not found in configuration"))
  end.

(** [device_config['ir_codes'][name]]: a [KeyError] when either key is
    missing. *)
Definition ir_code_of (d : DeviceConfig) (name : string) : Result (list Z) :=
  match ir_codes d with
  | None => Raise (KeyError "ir_codes")
  | Some table =>
      match table !! name with
      | Some code => Ok code
      | None => Raise (KeyError name)
      end
  end.

(** [device_config['ir_codes'].get(name, [])]. *)
Definition ir_code_get (d : DeviceConfig) (name : string) : Result (list Z) :=
  match ir_codes d with
  | None => Raise (KeyError "ir_codes")
  | Some table => Ok (default [] (table !! name))
  end.

Definition ir_params (d : DeviceConfig) (ir_code : list Z) : Json :=
  JObj [("entity", entity d); ("index", JInt 1); ("repeat", JInt 0);
        ("codeType", JInt 0); ("irCode", JList (map JInt ir_code))].

(** Lines 116-160 of [control_device]: from the device entry and the request
    fields to the RPC method and its params. *)
Definition command (d : DeviceConfig) (action : string) (level : option Z)
    (ac_mode : option string) (temperature : option Z)
  : Result (string * Json) :=
  if String.eqb (type d) "DIMMER" then
    if String.eqb action "on" then
      Ok ("RPC_ZCL_Set_OnOffTog",
          JObj [("entity", entity d); ("action", JInt 1)])
    else if String.eqb action "off" then
      Ok ("RPC_ZCL_Set_OnOffTog",
          JObj [("entity", entity d); ("action", JInt 0)])
    else if String.eqb action "dim" then
      match level with
      | None => Raise (HTTPException 400 "Level is required for dimming")
      | Some lv =>
          Ok ("RPC_ZCL_Move_To",
              JObj [("entity", entity d); ("level", JInt lv);
                    ("transTime", JInt 0)])
      end
    else Raise (HTTPException 400 "Invalid action for DIMMER")
  else if String.eqb (type d) "SWITCH" then
    if negb (String.eqb action "on" || String.eqb action "off") then
      Raise (HTTPException 400 "Invalid action for SWITCH")
    else
      Ok ("RPC_ZCL_Set_OnOffTog",
          JObj [("entity", entity d);
                ("action", JInt (if String.eqb action "on" then 1 else 0))])
  else if String.eqb (type d) "AC" then
    let ir_code :=
      if String.eqb action "on" then ir_code_of d "power_on"
      else if String.eqb action "off" then ir_code_of d "power_off"
      else if String.eqb action "set_mode" then
        match ac_mode with
        | Some mode =>
            if String.eqb mode "cool" then ir_code_of d "cool_mode"
            else if String.eqb mode "heat" then ir_code_of d "heat_mode"
            else Ok []
        | None => Ok []
        end
      else if String.eqb action "set_temperature" then
        match temperature with
        | Some t => ir_code_get d ("temp_" +:+ pretty t)
        | None => Ok []
        end
      else Ok []
    in
    match ir_code with
    | Ok code => Ok ("RPC_ZCL_Send_IR_Code", ir_params d code)
    | Raise e => Raise e
    end
  else Raise (HTTPException 400 "Unsupported device type").

Definition lift {A} (r : Result A) : M A :=
  match r with
  | Ok a => ret a
  | Raise e => raise e
  end.

Definition rpc_payload (method : string) (params : Json) (trans_id : Z) : Json :=
  JObj [("jsonrpc", JStr "2.0"); ("method", JStr method);
        ("params", params); ("transId", JInt trans_id)].

Definition rpc_headers (b : Backend) : list (string * string) :=
  ("Cookie", "user_id=" +:+ cookie b)
  :: ("Content-Type", "application/json") :: get_auth_header b.

Definition control_device (device_name action : string) (level : option Z)
    (ac_mode : option string) (temperature : option Z) : M Json :=
  ensure_session ;;;
  device_config <- lookup_device device_name ;;
  b <- get_self ;;
  let url := base_url b +:+ "/cgi-bin/rpc_bridge" in
  cmd <- lift (command device_config action level ac_mode temperature) ;;
  let '(method, params) := cmd in
  now <- time_time ;;
  let payload := rpc_payload method params now in
  let headers := rpc_headers b in
  try_except_RequestException
    (response <- requests_post url headers payload ;;
     if negb (Z.eqb (status_code response) 200) then
       raise (HTTPException (status_code response) "Device control failed")
     else response_json response)
    (fun e =>
       raise (HTTPException 500 ("Device control request failed: " +:+ e))).

(** [results[method] = v] on a dict kept in insertion order. *)
Fixpoint dict_set (k : string) (v : Json) (d : list (string * Json))
  : list (string * Json) :=
  match d with
  | [] => [(k, v)]
  | (k', v') :: rest =>
      if String.eqb k' k then (k, v) :: rest else (k', v') :: dict_set k v rest
  end.

(** Lines 209-214 of [read_device_status]. *)
Definition status_methods (d : DeviceConfig) : Result (list string) :=
  if String.eqb (type d) "DIMMER" then
    Ok ["RPC_ZCL_Get_OnOff"; "RPC_ZCL_Get_Level"]
  else if String.eqb (type d) "SWITCH" then
    Ok ["RPC_ZCL_Get_OnOff"]
  else
    Raise (HTTPException 400 "Unsupported device type for status reading").

(** The [for method in methods] loop. *)
Fixpoint query_loop (d : DeviceConfig) (url : string) (methods : list string)
    (results : list (string * Json)) : M (list (string * Json)) :=
  match methods with
  | [] => ret results
  | method :: rest =>
      now <- time_time ;;
      let payload := rpc_payload method (JObj [("entity", entity d)]) now in
      b <- get_self ;;
      let headers := rpc_headers b in
      results' <-
        try_except_RequestException
          (response <- requests_post url headers payload ;;
           if negb (Z.eqb (status_code response) 200) then
             raise (HTTPException (status_code response)
                      "Device status read failed")
           else
             j <- response_json response ;;
             ret (dict_set method j results))
          (fun e =>
             raise (HTTPException 500
                      ("Device status read request failed: " +:+ e))) ;;
      query_loop d url rest results'
  end.

Definition read_device_status (device_name : string) : M Json :=
  ensure_session ;;;
  device_config <- lookup_device device_name ;;
  b <- get_self ;;
  let url := base_url b +:+ "/cgi-bin/rpc_bridge" in
  methods <- lift (status_methods device_config) ;;
  results <- query_loop device_config url methods [] ;;
  ret (JObj results).

End Core.

(** ** app/api/models.py and app/api/routes.py *)

Record DeviceControl : Type := mkDeviceControl {
  device_name : string;
  action : string;
  level : option Z;
  ac_mode : option string;
  temperature : option Z
}.

(** [except HTTPException as e: raise e] /
    [except Exception as e: raise HTTPException(500, str(e))]. *)
Definition route_guard {A} (m : M A) : M A :=
  fun w s =>
    match m w s with
    | (Raise (HTTPException status detail), s') =>
        (Raise (HTTPException status detail), s')
    | (Raise e, s') => (Raise (HTTPException 500 (str_exn e)), s')
    | r => r
    end.

Definition success (result : Json) : Json :=
  JObj [("status", JStr "success"); ("result", result)].

Definition get_device_status (name : string) : M Json :=
  route_guard (result <- Core.read_device_status name ;; ret (success result)).

Definition control_device (dc : DeviceControl) : M Json :=
  route_guard
    (result <- Core.control_device (device_name dc) (action dc) (level dc)
                 (ac_mode dc) (temperature dc) ;;
     ret (success result)).

(** The status line FastAPI answers with when a route function raises: the
    exception's [status_code] for an [HTTPException], 500 for anything else;
    200 stands for a returned value that the response model accepts (see
    [endpoint_status] for the value itself). *)
Definition http_status {A} (r : Result A) : Z :=
  match r with
  | Ok _ => 200
  | Raise (HTTPException status _) => status
  | Raise _ => 500
  end.

(** [response_model=DeviceControlResponse] and [DeviceStatusResponse]
    (models.py 22-30): the value a route function returns must have a string
    under "status" and a dict under "result". *)
Definition response_model_ok (reply : Json) : bool :=
  match jget "status" reply, jget "result" reply with
  | Some (JStr _), Some (JObj _) => true
  | _, _ => false
  end.

(** The status of the answer of an endpoint declared with such a response
    model: a returned value that the model refuses is a 500. *)
Definition endpoint_status (r : Result Json) : Z :=
  match r with
  | Ok reply => if response_model_ok reply then 200 else 500
  | Raise _ => http_status r
  end.

(** ** schneider_gateway_fastapi.py: the session probe of the stand-alone
    script *)

Module Legacy.

Definition get_auth_header (b : Backend) : string :=
  let auth := b64encode (username b +:+ ":" +:+ password b) in
  "Basic " +:+ auth.

Definition is_cookie_valid : M bool :=
  b <- get_self ;;
  let url := base_url b +:+ "/home.html" in
  let headers :=
    [("Cookie", "user_id=" +:+ cookie b);
     ("Authorization", get_auth_header b)] in
  response <- requests_get url headers ;;
  ret (Z.eqb (status_code response) 200).

End Legacy.

(** ** The requests the backend sends, and sample data *)

Definition probe_request (b : Backend) : Request :=
  mkRequest GET (base_url b +:+ "/home.html")
    (("Cookie", "user_id=" +:+ cookie b) :: Core.get_auth_header b) None.

Definition login_request (b : Backend) : Request :=
  mkRequest GET (base_url b +:+ "/cgi-bin/admin") (Core.get_auth_header b) None.

Definition rpc_request (b : Backend) (method : string) (params : Json) (now : Z)
  : Request :=
  mkRequest POST (base_url b +:+ "/cgi-bin/rpc_bridge") (Core.rpc_headers b)
    (Some (Core.rpc_payload method params now)).

(** The state after request [r] has gone out. *)
Definition record_sent (s : State) (r : Request) : State :=
  mkState (self s) (disk s) (sent s ++ [r]).

(** What the gateway answers to the probe sent from state [s]. *)
Definition probe_answer (w : World) (s : State) : bool :=
  match gateway w (length (sent s)) (probe_request (self s)) with
  | Responded r => Z.eqb (status_code r) 200
  | ConnectionFailed _ => false
  end.

Definition is_probe (b : Backend) (r : Request) : bool :=
  match verb r with
  | GET => String.eqb (url r) (base_url b +:+ "/home.html")
  | POST => false
  end.

Definition is_login (b : Backend) (r : Request) : bool :=
  match verb r with
  | GET => String.eqb (url r) (base_url b +:+ "/cgi-bin/admin")
  | POST => false
  end.

Definition is_rpc (b : Backend) (r : Request) : bool :=
  match verb r with
  | GET => false
  | POST => String.eqb (url r) (base_url b +:+ "/cgi-bin/rpc_bridge")
  end.

(** The [method] of an RPC request. *)
Definition request_method (r : Request) : option Json :=
  j ← payload r; jget "method" j.

(** A field of the [params] of an RPC request. *)
Definition rpc_param (key : string) (r : Request) : option Json :=
  j ← payload r; p ← jget "params" j; jget key p.

(** The requests of a run that started in [s] and ended in [s']. *)
Definition new_requests (s s' : State) : list Request :=
  drop (length (sent s)) (sent s').

(** The state [login] leaves behind when the gateway hands out [resp] with
    status 200. *)
Definition logged_in (s : State) (resp : Response) : State :=
  let b := Core.assign_cookie (default "" (cookies resp !! "user_id")) (self s) in
  mkState b (config b) (sent s ++ [login_request (self s)]).

(** How one RPC exchange ends, from the gateway's answer; [what] is
    "Device control" or "Device status read". *)
Definition rpc_result (what : string) (o : Outcome) : Result Json :=
  match o with
  | Responded resp =>
      if Z.eqb (status_code resp) 200 then
        match body resp with
        | Decoded j => Ok j
        | Undecodable msg =>
            Raise (HTTPException 500 (what +:+ " request failed: " +:+ msg))
        end
      else Raise (HTTPException (status_code resp) (what +:+ " failed"))
  | ConnectionFailed msg =>
      Raise (HTTPException 500 (what +:+ " request failed: " +:+ msg))
  end.

(** The status query for [method] sent from state [s]. *)
Definition status_query (w : World) (s : State) (d : DeviceConfig)
    (method : string) : Request :=
  rpc_request (self s) method (JObj [("entity", entity d)])
    (clock w (length (sent s))).

(** The session discipline of a run from [s] to [s']: the first request is
    the validity probe; when the probe says "invalid" the login request comes
    next; everything after that is an RPC request, and there is none when the
    session phase raised. *)
Definition session_discipline (w : World) (s s' : State) : Prop :=
  let b := self s in
  let valid := probe_answer w s in
  exists rest,
    new_requests s s'
    = probe_request b :: (if valid then [] else [login_request b]) ++ rest
    /\ Forall (fun r => is_rpc b r = true) rest
    /\ length (List.filter (is_probe b) (new_requests s s')) = 1%nat
    /\ length (List.filter (is_login b) (new_requests s s'))
       = (if valid then 0 else 1)%nat
    /\ (fst (Core.ensure_session w s) <> Ok tt -> rest = []).

(** The POSTs of a run from [s] to the end state of [out]: a POST whose
    exchange fails (a status other than 200, a body that is not JSON, no
    connection) is the last request of the run, and its error is the result
    of the run. *)
Definition failed_post_ends_run (what : string) (w : World) (s : State)
    (out : Result Json * State) : Prop :=
  forall i r e,
    (length (sent s) <= i)%nat ->
    sent (snd out) !! i = Some r ->
    verb r = POST ->
    rpc_result what (gateway w i r) = Raise e ->
    fst out = Raise e /\ S i = length (sent (snd out)).

(** The status an HTTP caller sees, for every POST of a run from [s]: when
    the gateway answered that POST with a status other than 200 the run ended
    there and the caller gets the gateway's status; when the POST did not get
    through the run ended there and the caller gets 500. *)
Definition upstream_status_surfaced (w : World) (s : State)
    (out : Result Json * State) : Prop :=
  forall i r,
    (length (sent s) <= i)%nat ->
    sent (snd out) !! i = Some r ->
    verb r = POST ->
    match gateway w i r with
    | Responded resp =>
        status_code resp <> 200 ->
        http_status (fst out) = status_code resp
        /\ S i = length (sent (snd out))
    | ConnectionFailed _ =>
        http_status (fst out) = 500 /\ S i = length (sent (snd out))
    end.

(** The entry of the IR table that the AC branch of [control_device] reads
    with a subscript or with [.get], by action, mode and temperature. *)
Inductive ir_key : string -> option string -> option Z -> string -> Prop :=
| ir_key_on mode temp : ir_key "on" mode temp "power_on"
| ir_key_off mode temp : ir_key "off" mode temp "power_off"
| ir_key_cool temp : ir_key "set_mode" (Some "cool") temp "cool_mode"
| ir_key_heat temp : ir_key "set_mode" (Some "heat") temp "heat_mode"
| ir_key_temp mode t :
    ir_key "set_temperature" mode (Some t) ("temp_" +:+ pretty t).

(** The object is what [__init__] would build from the file as it is now:
    running [__init__] again changes nothing. *)
Definition restart_stable (w : World) (s : State) : Prop :=
  Core.init (config_file (self s)) w s = (Ok tt, s).

(** The parts of the configuration that no operation writes. *)
Definition fixed_part (c : Config)
  : string * string * string * gmap string DeviceConfig :=
  (gateway_ip c, cfg_username c, cfg_password c, devices c).

(** From [s] to [s'] nothing was written, or the cookie was assigned and the
    object's configuration saved. *)
Definition cookie_write_only (s s' : State) : Prop :=
  (self s' = self s /\ disk s' = disk s)
  \/ (exists c, self s' = Core.assign_cookie c (self s)
              /\ disk s' = config (self s')).

(** ** Decoding base64, to state that the encoding loses nothing *)

Fixpoint b64_index (c : ascii) (alphabet : string) (n : N) : option N :=
  match alphabet with
  | EmptyString => None
  | String a rest => if Ascii.eqb a c then Some n else b64_index c rest (n + 1)
  end.

Definition b64_value (c : ascii) : option N := b64_index c b64_alphabet 0.

Fixpoint b64_ungroup (fuel : nat) (cs : list ascii) : option (list N) :=
  match fuel with
  | O => match cs with [] => Some [] | _ => None end
  | S fuel' =>
      match cs with
      | [] => Some []
      | [c1; c2; c3; c4] =>
          v1 ← b64_value c1; v2 ← b64_value c2;
          if Ascii.eqb c3 "="%char then
            Some [v1 * 4 + v2 / 16]%N
          else
            v3 ← b64_value c3;
            if Ascii.eqb c4 "="%char then
              Some [v1 * 4 + v2 / 16; (v2 mod 16) * 16 + v3 / 4]%N
            else
              v4 ← b64_value c4;
              Some [v1 * 4 + v2 / 16; (v2 mod 16) * 16 + v3 / 4;
                    (v3 mod 4) * 64 + v4]%N
      | c1 :: c2 :: c3 :: c4 :: rest =>
          v1 ← b64_value c1; v2 ← b64_value c2;
          v3 ← b64_value c3; v4 ← b64_value c4;
          tail ← b64_ungroup fuel' rest;
          Some ((v1 * 4 + v2 / 16) :: ((v2 mod 16) * 16 + v3 / 4)
                :: ((v3 mod 4) * 64 + v4) :: tail)%N
      | _ => None
      end
  end.

Definition b64decode (s : string) : option string :=
  bytes ← b64_ungroup (String.length s) (list_ascii_of_string s);
  Some (string_of_list_ascii (map ascii_of_N bytes)).

(** How the [k]-th query [q] of a loop started in [s] ends. *)
Definition query_answer (w : World) (s : State) (k : nat) (q : Request)
  : Result Json :=
  rpc_result "Device status read" (gateway w (length (sent s) + k) q).


Module Sample.

Definition lamp : DeviceConfig :=
  mkDevice "Living room" "DIMMER" (JStr "E1") None.

Definition hall : DeviceConfig :=
  mkDevice "Hall" "SWITCH" (JStr "E2") None.

Definition aircon : DeviceConfig :=
  mkDevice "Bedroom" "AC" (JStr "E3")
    (Some (<["power_on" := [1; 2; 3]]>
           (<["cool_mode" := [4; 5]]>
            (<["temp_24" := [6]]> ∅)))).

Definition split_unit : DeviceConfig :=
  mkDevice "Office" "AC" (JStr "E5")
    (Some (<["cool_mode" := [4; 5]]> (<["temp_24" := [6]]> ∅))).

Definition blind : DeviceConfig :=
  mkDevice "Study" "BLIND" (JStr "E4") None.

Definition cfg : Config :=
  mkConfig "192.168.1.10" "admin" "admin" (Some "stale")
    (<["LivingRoomLamp" := lamp]>
     (<["HallSwitch" := hall]>
      (<["Aircon" := aircon]>
       (<["OfficeAC" := split_unit]>
        (<["StudyBlind" := blind]> ∅))))).

Definition backend : Backend :=
  mkBackend "config.yaml" cfg "http://192.168.1.10" "stale" "admin" "admin".

Definition start : State := mkState backend cfg [].

Definition ok (j : Json) : Outcome := Responded (mkResponse 200 ∅ (Decoded j)).

Definition status (code : Z) : Outcome :=
  Responded (mkResponse code ∅ (Decoded JNull)).

Definition fresh_cookie (c : string) : Outcome :=
  Responded (mkResponse 200 (<["user_id" := c]> ∅) (Decoded JNull)).

(** A gateway that answers the [n]-th request with the [n]-th outcome of a
    script, and refuses the connection afterwards; the clock stands still. *)
Definition scripted (script : list Outcome) : World :=
  mkWorld (fun n _ => default (ConnectionFailed "connection refused") (script !! n))
          (fun _ => 1700000000).

End Sample.

(** * Properties *)

Example b64encode_admin : b64encode "admin:admin" = "YWRtaW46YWRtaW4=".
Proof. reflexivity. Qed.

Example b64encode_padding :
  b64encode "a" = "YQ==" /\ b64encode "ab" = "YWI=" /\ b64encode "Man" = "TWFu".
Proof. repeat split. Qed.

Example init_sample :
  Core.init "config.yaml" (Sample.scripted []) (mkState Sample.backend Sample.cfg [])
  = (Ok tt, Sample.start).
Proof. reflexivity. Qed.

(** ** The session phase *)

Lemma is_cookie_valid_run w s :
  Core.is_cookie_valid w s
  = (Ok (probe_answer w s), record_sent s (probe_request (self s))).
Proof.
  unfold Core.is_cookie_valid, probe_answer, bind, get_self,
    try_except_RequestException, requests_get, send, ret, record_sent,
    probe_request.
  cbn. destruct (gateway w _ _); reflexivity.
Qed.


Lemma login_run w s :
  Core.login w s
  = match gateway w (length (sent s)) (login_request (self s)) with
    | Responded resp =>
        if Z.eqb (status_code resp) 200 then (Ok tt, logged_in s resp)
        else (Raise (HTTPException 401 "Login failed"),
              record_sent s (login_request (self s)))
    | ConnectionFailed msg =>
        (Raise (HTTPException 500 ("Login request failed: " +:+ msg)),
         record_sent s (login_request (self s)))
    end.
Proof.
  unfold Core.login, bind, get_self, try_except_RequestException,
    requests_get, send, record_sent, logged_in, login_request.
  cbn. destruct (gateway w _ _) as [resp|msg]; [|reflexivity].
  destruct (Z.eqb (status_code resp) 200); reflexivity.
Qed.

Lemma ensure_session_run w s :
  Core.ensure_session w s
  = if probe_answer w s then (Ok tt, record_sent s (probe_request (self s)))
    else Core.login w (record_sent s (probe_request (self s))).
Proof.
  unfold Core.ensure_session, bind. rewrite is_cookie_valid_run.
  destruct (probe_answer w s); reflexivity.
Qed.

(** The session phase changes nothing but the cookie, the trace and the
    file. *)
Lemma ensure_session_frame w s r s1 :
  Core.ensure_session w s = (r, s1) ->
  devices (config (self s1)) = devices (config (self s))
  /\ base_url (self s1) = base_url (self s)
  /\ username (self s1) = username (self s)
  /\ password (self s1) = password (self s).
Proof.
  rewrite ensure_session_run, login_run.
  destruct (probe_answer w s); [intros [= <- <-]; auto|].
  destruct (gateway w _ _) as [resp|msg]; [|intros [= <- <-]; auto].
  destruct (Z.eqb (status_code resp) 200); intros [= <- <-]; auto.
Qed.

(** ** The operation phase *)

Lemma control_device_run w s s1 name act lv mode temp d :
  Core.ensure_session w s = (Ok tt, s1) ->
  devices (config (self s)) !! name = Some d ->
  Core.control_device name act lv mode temp w s
  = match Core.command d act lv mode temp with
    | Raise e => (Raise e, s1)
    | Ok (method, params) =>
        let r := rpc_request (self s1) method params (clock w (length (sent s1))) in
        (rpc_result "Device control" (gateway w (length (sent s1)) r),
         record_sent s1 r)
    end.
Proof.
  intros Hs Hd.
  destruct (ensure_session_frame _ _ _ _ Hs) as (Hdev & _).
  unfold Core.control_device, bind at 1. rewrite Hs.
  unfold bind at 1, Core.lookup_device, bind at 1, get_self at 1.
  rewrite Hdev, Hd. cbn.
  destruct (Core.command d act lv mode temp) as [[method params]|e]; [|reflexivity].
  cbn. unfold bind, time_time, try_except_RequestException, requests_post, send,
    rpc_result, rpc_request, record_sent, response_json, raise, ret. cbn.
  destruct (gateway w _ _) as [resp|msg]; [|reflexivity].
  destruct (Z.eqb (status_code resp) 200); cbn; [|reflexivity].
  destruct (body resp); reflexivity.
Qed.

Lemma control_device_route dc w s :
  control_device dc w s
  = match Core.control_device (device_name dc) (action dc) (level dc)
            (ac_mode dc) (temperature dc) w s with
    | (Ok j, s') => (Ok (success j), s')
    | (Raise (HTTPException code detail), s') =>
        (Raise (HTTPException code detail), s')
    | (Raise e, s') => (Raise (HTTPException 500 (str_exn e)), s')
    end.
Proof.
  unfold control_device, route_guard, bind, ret.
  destruct (Core.control_device _ _ _ _ _ w s) as [[j|[]] s']; reflexivity.
Qed.

(** ** DIMMER: the [dim] action *)

(** C7.  Once the session phase has passed, [dim] on a DIMMER without a level
    raises the 400 "Level is required for dimming" and sends nothing; with a
    level it sends one POST whose method is RPC_ZCL_Move_To and whose params
    are the device's entity, that level and transTime 0. *)
Theorem dimmer_dim w s s1 name d mode temp :
  Core.ensure_session w s = (Ok tt, s1) ->
  devices (config (self s)) !! name = Some d ->
  type d = "DIMMER" ->
  (Core.control_device name "dim" None mode temp w s
   = (Raise (HTTPException 400 "Level is required for dimming"), s1)
   /\ http_status
        (fst (control_device (mkDeviceControl name "dim" None mode temp) w s))
      = 400)
  /\ forall lv,
      let r := rpc_request (self s1) "RPC_ZCL_Move_To"
                 (JObj [("entity", entity d); ("level", JInt lv);
                        ("transTime", JInt 0)])
                 (clock w (length (sent s1))) in
      snd (Core.control_device name "dim" (Some lv) mode temp w s)
      = record_sent s1 r
      /\ rpc_param "transTime" r = Some (JInt 0)
      /\ rpc_param "level" r = Some (JInt lv)
      /\ rpc_param "entity" r = Some (entity d)
      /\ request_method r = Some (JStr "RPC_ZCL_Move_To")
      /\ verb r = POST.
Proof.
  intros Hs Hd Ht.
  assert (Hnone : Core.command d "dim" None mode temp
                  = Raise (HTTPException 400 "Level is required for dimming")).
  { unfold Core.command. rewrite Ht. reflexivity. }
  split.
  - rewrite control_device_route. cbn [device_name action level ac_mode temperature].
    rewrite (control_device_run _ _ _ _ _ _ _ _ _ Hs Hd), Hnone. by split.
  - intros lv r. rewrite (control_device_run _ _ _ _ _ _ _ _ _ Hs Hd).
    unfold Core.command. rewrite Ht. cbn. by repeat split.
Qed.

Lemma dimmer_dim_witness :
  let w := Sample.scripted [Sample.ok JNull; Sample.ok (JObj [("result", JInt 0)])] in
  let s1 := record_sent Sample.start (probe_request Sample.backend) in
  Core.control_device "LivingRoomLamp" "dim" None None None w Sample.start
  = (Raise (HTTPException 400 "Level is required for dimming"), s1)
  /\ snd (Core.control_device "LivingRoomLamp" "dim" (Some 50) None None w
            Sample.start)
     = record_sent s1
         (rpc_request Sample.backend "RPC_ZCL_Move_To"
            (JObj [("entity", JStr "E1"); ("level", JInt 50);
                   ("transTime", JInt 0)]) 1700000000)
  /\ (request_method
        <$> last (sent (snd (Core.control_device "LivingRoomLamp" "dim"
                               (Some 50) None None w Sample.start))))
     = Some (Some (JStr "RPC_ZCL_Move_To")).
Proof.
  intros w s1.
  destruct (dimmer_dim w Sample.start s1 "LivingRoomLamp" Sample.lamp None None)
    as [[H0 _] H1]; [reflexivity | reflexivity | reflexivity |].
  destruct (H1 50) as (Hsent & _ & _ & _ & Hmethod & _).
  split; [exact H0|]. split; [exact Hsent|].
  rewrite Hsent. cbn [record_sent sent]. rewrite last_snoc. cbn [fmap option_fmap option_map].
  by rewrite Hmethod.
Defined.

(** ** AC: the IR code that is sent *)

Lemma eqb_ne (a b : string) : a <> b -> String.eqb a b = false.
Proof. apply String.eqb_neq. Qed.

(** C1.  What the code does with an action outside on / off / set_mode /
    set_temperature on an AC device: it raises nothing and sends the
    RPC_ZCL_Send_IR_Code request with an empty irCode; the result is whatever
    the gateway's answer to that request gives. *)
Theorem ac_unlisted_action_is_sent w s s1 name d act lv mode temp :
  Core.ensure_session w s = (Ok tt, s1) ->
  devices (config (self s)) !! name = Some d ->
  type d = "AC" ->
  act <> "on" -> act <> "off" -> act <> "set_mode" -> act <> "set_temperature" ->
  let r := rpc_request (self s1) "RPC_ZCL_Send_IR_Code" (Core.ir_params d [])
             (clock w (length (sent s1))) in
  Core.control_device name act lv mode temp w s
  = (rpc_result "Device control" (gateway w (length (sent s1)) r),
     record_sent s1 r)
  /\ rpc_param "irCode" r = Some (JList []).
Proof.
  intros Hs Hd Ht H1 H2 H3 H4 r.
  rewrite (control_device_run _ _ _ _ _ _ _ _ _ Hs Hd).
  unfold Core.command. rewrite Ht. cbn.
  rewrite (eqb_ne act "on"), (eqb_ne act "off"), (eqb_ne act "set_mode"),
    (eqb_ne act "set_temperature") by assumption.
  by split.
Qed.

Lemma ac_unlisted_action_is_sent_witness :
  let w := Sample.scripted [Sample.ok JNull; Sample.ok (JObj [("result", JInt 0)])] in
  let s1 := record_sent Sample.start (probe_request Sample.backend) in
  let r := rpc_request Sample.backend "RPC_ZCL_Send_IR_Code"
             (Core.ir_params Sample.aircon []) 1700000000 in
  Core.control_device "Aircon" "dim" (Some 50) None None w Sample.start
  = (Ok (JObj [("result", JInt 0)]), record_sent s1 r)
  /\ rpc_param "irCode" r = Some (JList []).
Proof.
  intros w s1 r.
  apply (ac_unlisted_action_is_sent w Sample.start s1 "Aircon" Sample.aircon
           "dim" (Some 50) None None); (reflexivity || discriminate).
Defined.

(** C6.  On an AC device, [set_mode] with a mode other than cool and heat
    (or with none), and [set_temperature] with a temperature whose temp_<value>
    entry is missing from the IR table, raise nothing: the
    RPC_ZCL_Send_IR_Code request goes out with an empty irCode, and the result
    is the one the gateway's answer gives. *)
Theorem ac_empty_ir_code w s s1 name d lv :
  Core.ensure_session w s = (Ok tt, s1) ->
  devices (config (self s)) !! name = Some d ->
  type d = "AC" ->
  let r := rpc_request (self s1) "RPC_ZCL_Send_IR_Code" (Core.ir_params d [])
             (clock w (length (sent s1))) in
  let sent_empty :=
    (rpc_result "Device control" (gateway w (length (sent s1)) r),
     record_sent s1 r) in
  rpc_param "irCode" r = Some (JList [])
  /\ (forall mode temp,
        mode <> Some "cool" -> mode <> Some "heat" ->
        Core.control_device name "set_mode" lv mode temp w s = sent_empty)
  /\ (forall mode t table,
        ir_codes d = Some table ->
        table !! ("temp_" +:+ pretty t) = None ->
        Core.control_device name "set_temperature" lv mode (Some t) w s
        = sent_empty).
Proof.
  intros Hs Hd Ht r sent_empty. split; [reflexivity|]. split.
  - intros mode temp Hc Hh.
    rewrite (control_device_run _ _ _ _ _ _ _ _ _ Hs Hd).
    unfold Core.command. rewrite Ht. cbn.
    destruct mode as [m|]; [|reflexivity].
    rewrite (eqb_ne m "cool"), (eqb_ne m "heat") by congruence. reflexivity.
  - intros mode t table Hi Hn.
    rewrite (control_device_run _ _ _ _ _ _ _ _ _ Hs Hd).
    unfold Core.command, Core.ir_code_get. rewrite Ht, Hi, Hn. reflexivity.
Qed.

Lemma ac_empty_ir_code_witness :
  let w := Sample.scripted [Sample.ok JNull; Sample.ok (JObj [("result", JInt 0)])] in
  let s1 := record_sent Sample.start (probe_request Sample.backend) in
  let r := rpc_request Sample.backend "RPC_ZCL_Send_IR_Code"
             (Core.ir_params Sample.aircon []) 1700000000 in
  Core.control_device "Aircon" "set_mode" None (Some "dry") None w Sample.start
  = (Ok (JObj [("result", JInt 0)]), record_sent s1 r)
  /\ Core.control_device "Aircon" "set_temperature" None None (Some 30) w
       Sample.start
     = (Ok (JObj [("result", JInt 0)]), record_sent s1 r).
Proof.
  intros w s1 r.
  destruct (ac_empty_ir_code w Sample.start s1 "Aircon" Sample.aircon None)
    as (_ & Hmode & Htemp); [reflexivity | reflexivity | reflexivity |].
  split.
  - apply Hmode; discriminate.
  - eapply Htemp; reflexivity.
Defined.

(** C9.  On an AC device whose IR table has no power_on (power_off) entry,
    [on] ([off]) raises the [KeyError] of the missing entry before anything is
    sent; the route answers 500. *)
Theorem ac_power_code_missing w s s1 name d lv mode temp table act key :
  Core.ensure_session w s = (Ok tt, s1) ->
  devices (config (self s)) !! name = Some d ->
  type d = "AC" ->
  ir_codes d = Some table ->
  (act = "on" /\ key = "power_on") \/ (act = "off" /\ key = "power_off") ->
  table !! key = None ->
  Core.control_device name act lv mode temp w s = (Raise (KeyError key), s1)
  /\ control_device (mkDeviceControl name act lv mode temp) w s
     = (Raise (HTTPException 500 ("'" +:+ key +:+ "'")), s1)
  /\ http_status
       (fst (control_device (mkDeviceControl name act lv mode temp) w s))
     = 500.
Proof.
  intros Hs Hd Ht Hi Hact Hn.
  assert (Hc : Core.command d act lv mode temp = Raise (KeyError key)).
  { unfold Core.command, Core.ir_code_of. rewrite Ht.
    destruct Hact as [[-> ->]|[-> ->]]; cbn; rewrite Hi, Hn; reflexivity. }
  assert (H : Core.control_device name act lv mode temp w s
              = (Raise (KeyError key), s1)).
  { rewrite (control_device_run _ _ _ _ _ _ _ _ _ Hs Hd), Hc. reflexivity. }
  rewrite control_device_route. cbn [device_name action level ac_mode temperature].
  rewrite H. by repeat split.
Qed.

Lemma ac_power_code_missing_witness :
  let w := Sample.scripted [Sample.ok JNull; Sample.ok JNull] in
  let s1 := record_sent Sample.start (probe_request Sample.backend) in
  Core.control_device "OfficeAC" "on" None None None w Sample.start
  = (Raise (KeyError "power_on"), s1)
  /\ Core.control_device "OfficeAC" "off" None None None w Sample.start
     = (Raise (KeyError "power_off"), s1).
Proof.
  intros w s1. split.
  - eapply (ac_power_code_missing w Sample.start s1 "OfficeAC" Sample.split_unit
              None None None _ "on" "power_on");
      [reflexivity | reflexivity | reflexivity | reflexivity | by left | reflexivity].
  - eapply (ac_power_code_missing w Sample.start s1 "OfficeAC" Sample.split_unit
              None None None _ "off" "power_off");
      [reflexivity | reflexivity | reflexivity | reflexivity | by right | reflexivity].
Defined.

(** ** Status reads *)

Lemma query_loop_step w s d m rest results :
  let q := status_query w s d m in
  Core.query_loop d (base_url (self s) +:+ "/cgi-bin/rpc_bridge") (m :: rest)
    results w s
  = match rpc_result "Device status read" (gateway w (length (sent s)) q) with
    | Ok j =>
        Core.query_loop d (base_url (self s) +:+ "/cgi-bin/rpc_bridge") rest
          (Core.dict_set m j results) w (record_sent s q)
    | Raise e => (Raise e, record_sent s q)
    end.
Proof.
  cbn. unfold bind, time_time, get_self, try_except_RequestException,
    requests_post, send, rpc_result, status_query, rpc_request, record_sent,
    response_json, raise, ret. cbn.
  destruct (gateway w _ _) as [resp|msg]; [|reflexivity].
  destruct (Z.eqb (status_code resp) 200); cbn; [|reflexivity].
  destruct (body resp); reflexivity.
Qed.

Lemma read_device_status_run w s s1 name d :
  Core.ensure_session w s = (Ok tt, s1) ->
  devices (config (self s)) !! name = Some d ->
  Core.read_device_status name w s
  = match Core.status_methods d with
    | Raise e => (Raise e, s1)
    | Ok methods =>
        match Core.query_loop d (base_url (self s1) +:+ "/cgi-bin/rpc_bridge")
                methods [] w s1 with
        | (Ok results, s') => (Ok (JObj results), s')
        | (Raise e, s') => (Raise e, s')
        end
    end.
Proof.
  intros Hs Hd.
  destruct (ensure_session_frame _ _ _ _ Hs) as (Hdev & _).
  unfold Core.read_device_status, bind at 1. rewrite Hs.
  unfold bind at 1, Core.lookup_device, bind at 1, get_self at 1.
  rewrite Hdev, Hd. cbn.
  destruct (Core.status_methods d) as [methods|e]; [|reflexivity].
  cbn. unfold bind at 1.
  destruct (Core.query_loop _ _ _ _ _ _) as [[results|e] s']; reflexivity.
Qed.

(** C5.  After the session phase, a status read of a SWITCH sends exactly the
    RPC_ZCL_Get_OnOff query; of a DIMMER, RPC_ZCL_Get_OnOff and then
    RPC_ZCL_Get_Level, the second only when the first succeeded; a failed
    query ends the read with its error and no result; any other type is
    answered 400 "Unsupported device type for status reading" with nothing
    sent.  The queries are POSTs whose method is the name given and whose
    params hold the device's entity. *)
Theorem read_device_status_queries w s s1 name d :
  Core.ensure_session w s = (Ok tt, s1) ->
  devices (config (self s)) !! name = Some d ->
  let q1 := status_query w s1 d "RPC_ZCL_Get_OnOff" in
  let a1 := rpc_result "Device status read" (gateway w (length (sent s1)) q1) in
  let s2 := record_sent s1 q1 in
  let q2 := status_query w s2 d "RPC_ZCL_Get_Level" in
  let a2 := rpc_result "Device status read" (gateway w (length (sent s2)) q2) in
  (type d = "SWITCH" ->
   Core.read_device_status name w s
   = (match a1 with
      | Ok j => Ok (JObj [("RPC_ZCL_Get_OnOff", j)])
      | Raise e => Raise e
      end, s2))
  /\ (type d = "DIMMER" ->
      Core.read_device_status name w s
      = match a1 with
        | Raise e => (Raise e, s2)
        | Ok j1 =>
            (match a2 with
             | Ok j2 =>
                 Ok (JObj [("RPC_ZCL_Get_OnOff", j1); ("RPC_ZCL_Get_Level", j2)])
             | Raise e => Raise e
             end, record_sent s2 q2)
        end)
  /\ (type d <> "SWITCH" -> type d <> "DIMMER" ->
      Core.read_device_status name w s
      = (Raise (HTTPException 400 "Unsupported device type for status reading"),
         s1))
  /\ (request_method q1 = Some (JStr "RPC_ZCL_Get_OnOff")
      /\ rpc_param "entity" q1 = Some (entity d) /\ verb q1 = POST)
  /\ (request_method q2 = Some (JStr "RPC_ZCL_Get_Level")
      /\ rpc_param "entity" q2 = Some (entity d) /\ verb q2 = POST).
Proof.
  intros Hs Hd q1 a1 s2 q2 a2.
  rewrite (read_device_status_run _ _ _ _ _ Hs Hd).
  unfold Core.status_methods. repeat split.
  - intros ->. cbn -[Core.query_loop]. rewrite query_loop_step.
    fold q1 a1 s2. destruct a1; reflexivity.
  - intros ->. cbn -[Core.query_loop]. rewrite query_loop_step.
    fold q1 a1 s2. destruct a1 as [j1|e]; [|reflexivity].
    change (base_url (self s1)) with (base_url (self s2)).
    rewrite query_loop_step. fold q2 a2. destruct a2; reflexivity.
  - intros H1 H2. rewrite (eqb_ne _ _ H1), (eqb_ne _ _ H2). reflexivity.
Qed.

Lemma read_device_status_queries_witness :
  let w := Sample.scripted
             [Sample.ok JNull; Sample.ok (JInt 1); Sample.ok (JInt 128)] in
  let s1 := record_sent Sample.start (probe_request Sample.backend) in
  let on_off := rpc_request Sample.backend "RPC_ZCL_Get_OnOff" in
  let lvl := rpc_request Sample.backend "RPC_ZCL_Get_Level" in
  Core.read_device_status "HallSwitch" w Sample.start
  = (Ok (JObj [("RPC_ZCL_Get_OnOff", JInt 1)]),
     record_sent s1 (on_off (JObj [("entity", JStr "E2")]) 1700000000))
  /\ Core.read_device_status "LivingRoomLamp" w Sample.start
     = (Ok (JObj [("RPC_ZCL_Get_OnOff", JInt 1); ("RPC_ZCL_Get_Level", JInt 128)]),
        record_sent
          (record_sent s1 (on_off (JObj [("entity", JStr "E1")]) 1700000000))
          (lvl (JObj [("entity", JStr "E1")]) 1700000000))
  /\ Core.read_device_status "Aircon" w Sample.start
     = (Raise (HTTPException 400 "Unsupported device type for status reading"),
        s1)
  /\ (request_method
        <$> new_requests s1
              (snd (Core.read_device_status "LivingRoomLamp" w Sample.start)))
     = [Some (JStr "RPC_ZCL_Get_OnOff"); Some (JStr "RPC_ZCL_Get_Level")].
Proof.
  intros w s1 on_off lvl. split; [|split; [|split]].
  - apply (read_device_status_queries w Sample.start s1 "HallSwitch" Sample.hall);
      reflexivity.
  - apply (read_device_status_queries w Sample.start s1 "LivingRoomLamp"
             Sample.lamp); reflexivity.
  - apply (read_device_status_queries w Sample.start s1 "Aircon" Sample.aircon);
      (reflexivity || discriminate).
  - destruct (read_device_status_queries w Sample.start s1 "LivingRoomLamp"
                Sample.lamp eq_refl eq_refl)
      as (_ & _ & _ & (Hm1 & _) & (Hm2 & _)).
    exact (f_equal2 (fun a b => [a; b]) Hm1 Hm2).
Defined.

Example dimmer_status_first_query_fails :
  let w := Sample.scripted [Sample.ok JNull; Sample.status 503; Sample.ok (JInt 128)] in
  Core.read_device_status "LivingRoomLamp" w Sample.start
  = (Raise (HTTPException 503 "Device status read failed"),
     record_sent (record_sent Sample.start (probe_request Sample.backend))
       (rpc_request Sample.backend "RPC_ZCL_Get_OnOff"
          (JObj [("entity", JStr "E1")]) 1700000000)).
Proof. reflexivity. Qed.

(** The status read, by device type. *)
Lemma read_device_status_by_type w s s1 name d :
  Core.ensure_session w s = (Ok tt, s1) ->
  devices (config (self s)) !! name = Some d ->
  let q1 := status_query w s1 d "RPC_ZCL_Get_OnOff" in
  let s2 := record_sent s1 q1 in
  let q2 := status_query w s2 d "RPC_ZCL_Get_Level" in
  Core.read_device_status name w s
  = if String.eqb (type d) "DIMMER" then
      match rpc_result "Device status read" (gateway w (length (sent s1)) q1) with
      | Raise e => (Raise e, s2)
      | Ok j1 =>
          (match rpc_result "Device status read"
                   (gateway w (length (sent s2)) q2) with
           | Ok j2 =>
               Ok (JObj [("RPC_ZCL_Get_OnOff", j1); ("RPC_ZCL_Get_Level", j2)])
           | Raise e => Raise e
           end, record_sent s2 q2)
      end
    else if String.eqb (type d) "SWITCH" then
      (match rpc_result "Device status read"
               (gateway w (length (sent s1)) q1) with
       | Ok j => Ok (JObj [("RPC_ZCL_Get_OnOff", j)])
       | Raise e => Raise e
       end, s2)
    else
      (Raise (HTTPException 400 "Unsupported device type for status reading"),
       s1).
Proof.
  intros Hs Hd q1 s2 q2.
  rewrite (read_device_status_run _ _ _ _ _ Hs Hd).
  unfold Core.status_methods.
  destruct (String.eqb (type d) "DIMMER");
    [|destruct (String.eqb (type d) "SWITCH"); [|reflexivity]].
  - rewrite query_loop_step. fold q1 s2.
    destruct (rpc_result _ _) as [j1|e]; [|reflexivity].
    change (base_url (self s1)) with (base_url (self s2)).
    rewrite query_loop_step. fold q2. by destruct (rpc_result _ _).
  - rewrite query_loop_step. fold q1 s2. by destruct (rpc_result _ _).
Qed.


(** ** One probe, at most one login *)

Lemma eqb_app_l (p a b : string) :
  String.eqb (p +:+ a) (p +:+ b) = String.eqb a b.
Proof.
  induction p as [|c p IH]; [reflexivity|].
  change (String.eqb (String c (p +:+ a)) (String c (p +:+ b)) = String.eqb a b).
  cbn [String.eqb]. by rewrite Ascii.eqb_refl.
Qed.

Lemma is_probe_probe b : is_probe b (probe_request b) = true.
Proof. apply String.eqb_refl. Qed.

Lemma is_probe_login b : is_probe b (login_request b) = false.
Proof. unfold is_probe, login_request. cbn. by rewrite eqb_app_l. Qed.

Lemma is_login_login b : is_login b (login_request b) = true.
Proof. apply String.eqb_refl. Qed.

Lemma is_login_probe b : is_login b (probe_request b) = false.
Proof. unfold is_login, probe_request. cbn. by rewrite eqb_app_l. Qed.

Lemma rpc_not_session b rest :
  Forall (fun r => is_rpc b r = true) rest ->
  List.filter (is_probe b) rest = [] /\ List.filter (is_login b) rest = [].
Proof.
  induction 1 as [|r rest Hr _ [IHp IHl]]; [done|].
  cbn. unfold is_probe, is_login, is_rpc in *.
  destruct (verb r); [discriminate|]. by rewrite IHp, IHl.
Qed.

Lemma ensure_session_sends w s :
  sent (snd (Core.ensure_session w s))
  = sent s ++ probe_request (self s)
      :: (if probe_answer w s then [] else [login_request (self s)]).
Proof.
  rewrite ensure_session_run.
  destruct (probe_answer w s); [reflexivity|].
  rewrite login_run. cbn [record_sent self sent].
  change (login_request (self (record_sent s (probe_request (self s)))))
    with (login_request (self s)).
  destruct (gateway w _ _) as [resp|msg];
    [destruct (Z.eqb (status_code resp) 200)|]; cbn; by rewrite <- app_assoc.
Qed.

Lemma is_rpc_after_session w s r s1 method params now :
  Core.ensure_session w s = (r, s1) ->
  is_rpc (self s) (rpc_request (self s1) method params now) = true.
Proof.
  intros Hs. destruct (ensure_session_frame _ _ _ _ Hs) as (_ & Hb & _).
  unfold is_rpc, rpc_request. cbn. rewrite Hb. apply String.eqb_refl.
Qed.

Lemma control_device_stops w s e s1 name act lv mode temp :
  Core.ensure_session w s = (Raise e, s1) ->
  Core.control_device name act lv mode temp w s = (Raise e, s1).
Proof. intros Hs. unfold Core.control_device, bind at 1. by rewrite Hs. Qed.

Lemma control_device_unknown w s s1 name act lv mode temp :
  Core.ensure_session w s = (Ok tt, s1) ->
  devices (config (self s)) !! name = None ->
  Core.control_device name act lv mode temp w s
  = (Raise (HTTPException 404
              ("Device " +:+ name +:+ " not found in configuration")), s1).
Proof.
  intros Hs Hd. destruct (ensure_session_frame _ _ _ _ Hs) as (Hdev & _).
  unfold Core.control_device, bind at 1. rewrite Hs.
  unfold bind at 1, Core.lookup_device, bind at 1, get_self at 1.
  by rewrite Hdev, Hd.
Qed.

Lemma read_device_status_stops w s e s1 name :
  Core.ensure_session w s = (Raise e, s1) ->
  Core.read_device_status name w s = (Raise e, s1).
Proof. intros Hs. unfold Core.read_device_status, bind at 1. by rewrite Hs. Qed.

Lemma read_device_status_unknown w s s1 name :
  Core.ensure_session w s = (Ok tt, s1) ->
  devices (config (self s)) !! name = None ->
  Core.read_device_status name w s
  = (Raise (HTTPException 404
              ("Device " +:+ name +:+ " not found in configuration")), s1).
Proof.
  intros Hs Hd. destruct (ensure_session_frame _ _ _ _ Hs) as (Hdev & _).
  unfold Core.read_device_status, bind at 1. rewrite Hs.
  unfold bind at 1, Core.lookup_device, bind at 1, get_self at 1.
  by rewrite Hdev, Hd.
Qed.

(** The run stopped where the session phase left it. *)
Ltac nothing_sent := exists []; cbn; by rewrite app_nil_r.

(** What either operation sends once the session phase is over: RPC requests
    only, and none at all when the session phase raised. *)
Lemma control_device_sends w s name act lv mode temp :
  exists rest,
    sent (snd (Core.control_device name act lv mode temp w s))
    = sent (snd (Core.ensure_session w s)) ++ rest
    /\ Forall (fun r => is_rpc (self s) r = true) rest
    /\ (fst (Core.ensure_session w s) <> Ok tt -> rest = []).
Proof.
  destruct (Core.ensure_session w s) as [[[]|e] s1] eqn:Hs; cbn [fst snd].
  - destruct (devices (config (self s)) !! name) as [d|] eqn:Hd.
    + rewrite (control_device_run _ _ _ _ _ _ _ _ _ Hs Hd).
      destruct (Core.command d act lv mode temp) as [[method params]|e].
      * eexists [_]. cbn. repeat split; [|done].
        constructor; [|done]. eapply is_rpc_after_session, Hs.
      * nothing_sent.
    + rewrite (control_device_unknown _ _ _ _ _ _ _ _ Hs Hd).
      nothing_sent.
  - rewrite (control_device_stops _ _ _ _ _ _ _ _ _ Hs).
    nothing_sent.
Qed.

Lemma read_device_status_sends w s name :
  exists rest,
    sent (snd (Core.read_device_status name w s))
    = sent (snd (Core.ensure_session w s)) ++ rest
    /\ Forall (fun r => is_rpc (self s) r = true) rest
    /\ (fst (Core.ensure_session w s) <> Ok tt -> rest = []).
Proof.
  destruct (Core.ensure_session w s) as [[[]|e] s1] eqn:Hs; cbn [fst snd].
  - destruct (devices (config (self s)) !! name) as [d|] eqn:Hd.
    + rewrite (read_device_status_run _ _ _ _ _ Hs Hd).
      unfold Core.status_methods.
      destruct (String.eqb (type d) "DIMMER");
        [|destruct (String.eqb (type d) "SWITCH")].
      * rewrite query_loop_step.
        destruct (rpc_result _ _) as [j1|e1].
        -- change (base_url (self s1))
             with (base_url (self (record_sent s1
                      (status_query w s1 d "RPC_ZCL_Get_OnOff")))).
           rewrite query_loop_step.
           eexists [_; _].
           split; [destruct (rpc_result _ _); cbn; by rewrite <- app_assoc|].
           split; [|done].
           repeat constructor; exact (is_rpc_after_session w s _ s1 _ _ _ Hs).
        -- eexists [_]. cbn. repeat split; [|done].
           constructor; [|done]. eapply is_rpc_after_session, Hs.
      * rewrite query_loop_step. eexists [_].
        split; [destruct (rpc_result _ _); reflexivity|].
        split; [|done].
        constructor; [|done]. eapply is_rpc_after_session, Hs.
      * nothing_sent.
    + rewrite (read_device_status_unknown _ _ _ _ Hs Hd).
      nothing_sent.
  - rewrite (read_device_status_stops _ _ _ _ _ Hs).
    nothing_sent.
Qed.

Lemma session_discipline_intro w s s' rest :
  sent s' = sent (snd (Core.ensure_session w s)) ++ rest ->
  Forall (fun r => is_rpc (self s) r = true) rest ->
  (fst (Core.ensure_session w s) <> Ok tt -> rest = []) ->
  session_discipline w s s'.
Proof.
  intros Hsent Hrpc Hstop. exists rest.
  destruct (rpc_not_session _ _ Hrpc) as [Hp Hl].
  assert (Hnew : new_requests s s'
                 = probe_request (self s)
                   :: (if probe_answer w s then [] else [login_request (self s)])
                   ++ rest).
  { unfold new_requests. rewrite Hsent, ensure_session_sends, <- app_assoc.
    by rewrite drop_app_length. }
  rewrite Hnew. repeat split; [done| | |done].
  - destruct (probe_answer w s); cbn [app List.filter];
      rewrite is_probe_probe, ?is_probe_login, Hp; reflexivity.
  - destruct (probe_answer w s); cbn [app List.filter];
      rewrite is_login_probe, ?is_login_login, Hl; reflexivity.
Qed.

(** C4.  In a [control_device] and in a [read_device_status] call the first
    request is the validity probe, whose answer is what [is_cookie_valid]
    returns; there is exactly one probe; when the answer is false the login
    request follows at once and is the only one, when it is true there is no
    login request; the rest of the trace is RPC requests, and it is empty when
    the session phase raised. *)
Theorem session_checked_once w s name act lv mode temp :
  fst (Core.is_cookie_valid w s) = Ok (probe_answer w s)
  /\ session_discipline w s
       (snd (Core.control_device name act lv mode temp w s))
  /\ session_discipline w s (snd (Core.read_device_status name w s)).
Proof.
  split; [by rewrite is_cookie_valid_run|]. split.
  - destruct (control_device_sends w s name act lv mode temp) as (rest & H1 & H2 & H3).
    by eapply session_discipline_intro.
  - destruct (read_device_status_sends w s name) as (rest & H1 & H2 & H3).
    by eapply session_discipline_intro.
Qed.

Example stale_cookie_one_login :
  let w := Sample.scripted
             [Sample.status 401; Sample.fresh_cookie "abc123"; Sample.ok JNull] in
  let s' := snd (Core.control_device "LivingRoomLamp" "dim" (Some 50) None None
                   w Sample.start) in
  map url (new_requests Sample.start s')
  = ["http://192.168.1.10/home.html"; "http://192.168.1.10/cgi-bin/admin";
     "http://192.168.1.10/cgi-bin/rpc_bridge"]
  /\ cookie (self s') = "abc123"
  /\ cfg_cookie (disk s') = Some "abc123"
  /\ (headers <$> last (sent s'))
     = Some [("Cookie", "user_id=abc123"); ("Content-Type", "application/json");
             ("Authorization", "Basic YWRtaW46YWRtaW4=")].
Proof. repeat split. Qed.

Example valid_cookie_no_login :
  let w := Sample.scripted [Sample.ok JNull; Sample.ok JNull] in
  let s' := snd (Core.control_device "LivingRoomLamp" "dim" (Some 50) None None
                   w Sample.start) in
  map url (new_requests Sample.start s')
  = ["http://192.168.1.10/home.html"; "http://192.168.1.10/cgi-bin/rpc_bridge"]
  /\ (payload <$> last (sent s'))
     = Some (Some (JObj [("jsonrpc", JStr "2.0"); ("method", JStr "RPC_ZCL_Move_To");
                         ("params", JObj [("entity", JStr "E1"); ("level", JInt 50);
                                          ("transTime", JInt 0)]);
                         ("transId", JInt 1700000000)])).
Proof. repeat split. Qed.

(** ** login *)

(** C3, as the code has it.  [login] raises 401 "Login failed" when the
    gateway answers the Basic-Auth request with a status other than 200, and
    500 "Login request failed: ..." when the request does not get through; in
    both cases the cookie and the file are left alone.  On status 200 it
    takes the user_id cookie of the response (the empty string when there is
    none), stores it in the object and its config, and writes that config to
    the file. *)
Theorem login_outcomes w s :
  let r := login_request (self s) in
  match gateway w (length (sent s)) r with
  | Responded resp =>
      if Z.eqb (status_code resp) 200 then
        let c := default "" (cookies resp !! "user_id") in
        exists s',
          Core.login w s = (Ok tt, s')
          /\ cookie (self s') = c
          /\ cfg_cookie (config (self s')) = Some c
          /\ disk s' = config (self s')
          /\ sent s' = sent s ++ [r]
      else
        Core.login w s
        = (Raise (HTTPException 401 "Login failed"), record_sent s r)
  | ConnectionFailed msg =>
      Core.login w s
      = (Raise (HTTPException 500 ("Login request failed: " +:+ msg)),
         record_sent s r)
  end.
Proof.
  cbn zeta. rewrite login_run.
  destruct (gateway w _ _) as [resp|msg]; [|reflexivity].
  destruct (Z.eqb (status_code resp) 200); [|reflexivity].
  eexists. split; [reflexivity|]. by repeat split.
Qed.

(** C3 as stated fails: a transport failure during [login] is a 500, not a
    401. *)
Lemma login_transport_failure_not_401 :
  ~ (forall w s msg,
       gateway w (length (sent s)) (login_request (self s)) = ConnectionFailed msg ->
       http_status (fst (Core.login w s)) = 401).
Proof.
  intros H.
  specialize (H (Sample.scripted []) Sample.start "connection refused" eq_refl).
  discriminate H.
Qed.

(** C10.  When the gateway answers the login request with status 200 and no
    user_id cookie, [login] returns normally, and the cookie of the object,
    of its config and of the file is the empty string. *)
Theorem login_without_cookie w s resp :
  gateway w (length (sent s)) (login_request (self s)) = Responded resp ->
  status_code resp = 200 ->
  cookies resp !! "user_id" = None ->
  exists s',
    Core.login w s = (Ok tt, s')
    /\ cookie (self s') = ""
    /\ cfg_cookie (config (self s')) = Some ""
    /\ cfg_cookie (disk s') = Some "".
Proof.
  intros Hg Hst Hck. rewrite login_run, Hg, Hst. cbn.
  eexists. split; [reflexivity|].
  unfold logged_in. cbn. by rewrite Hck.
Qed.

Lemma login_without_cookie_witness :
  exists s',
    Core.login (Sample.scripted [Sample.ok JNull]) Sample.start = (Ok tt, s')
    /\ cookie (self s') = ""
    /\ cfg_cookie (config (self s')) = Some ""
    /\ cfg_cookie (disk s') = Some "".
Proof.
  apply (login_without_cookie (Sample.scripted [Sample.ok JNull]) Sample.start
           (mkResponse 200 ∅ (Decoded JNull))); reflexivity.
Defined.

(** ** The validity probe *)

(** X21.  [is_cookie_valid] of app/core/backend.py never raises: it returns
    True exactly when the gateway answers the probe with status 200, and
    False when the request does not get through. *)
Lemma is_cookie_valid_never_raises w s :
  exists v,
    fst (Core.is_cookie_valid w s) = Ok v
    /\ (v = true <->
        exists resp,
          gateway w (length (sent s)) (probe_request (self s)) = Responded resp
          /\ status_code resp = 200)
    /\ (forall msg,
          gateway w (length (sent s)) (probe_request (self s))
          = ConnectionFailed msg -> v = false).
Proof.
  exists (probe_answer w s). rewrite is_cookie_valid_run.
  split; [reflexivity|]. unfold probe_answer.
  destruct (gateway w _ _) as [resp|msg].
  - split; [|discriminate]. rewrite Z.eqb_eq. split; [eauto|].
    by intros (resp' & [= <-] & H).
  - split; [|done]. split; [discriminate|]. by intros (resp' & [=] & _).
Qed.

Lemma legacy_is_cookie_valid_run w s :
  Legacy.is_cookie_valid w s
  = (match gateway w (length (sent s)) (probe_request (self s)) with
     | Responded resp => Ok (Z.eqb (status_code resp) 200)
     | ConnectionFailed msg => Raise (RequestException msg)
     end, record_sent s (probe_request (self s))).
Proof.
  unfold Legacy.is_cookie_valid, bind, get_self, requests_get, send, ret,
    record_sent, probe_request. cbn.
  destruct (gateway w _ _); reflexivity.
Qed.

(** C8.  With the gateway unreachable, [is_cookie_valid] of
    app/core/backend.py returns False, and [is_cookie_valid] of
    schneider_gateway_fastapi.py, which has no try/except, raises the
    [RequestException]. *)
Theorem is_cookie_valid_unreachable_gateway :
  let w := Sample.scripted [] in
  let s' := record_sent Sample.start (probe_request Sample.backend) in
  Core.is_cookie_valid w Sample.start = (Ok false, s')
  /\ Legacy.is_cookie_valid w Sample.start
     = (Raise (RequestException "connection refused"), s').
Proof. split; reflexivity. Qed.

(** ** Gateway and transport failures of an RPC request *)

Lemma get_device_status_route name w s :
  get_device_status name w s
  = match Core.read_device_status name w s with
    | (Ok j, s') => (Ok (success j), s')
    | (Raise (HTTPException code detail), s') =>
        (Raise (HTTPException code detail), s')
    | (Raise e, s') => (Raise (HTTPException 500 (str_exn e)), s')
    end.
Proof.
  unfold get_device_status, route_guard, bind, ret.
  destruct (Core.read_device_status name w s) as [[j|[]] s']; reflexivity.
Qed.

Lemma session_requests_are_get w s i r :
  (length (sent s) <= i)%nat ->
  sent (snd (Core.ensure_session w s)) !! i = Some r ->
  verb r = GET.
Proof.
  intros Hi. rewrite ensure_session_sends.
  intros [Hl|[_ Hl]]%lookup_app_Some.
  - apply lookup_lt_Some in Hl. lia.
  - destruct (i - length (sent s))%nat as [|[|n]], (probe_answer w s);
      cbn in Hl; by simplify_eq.
Qed.

(** A lookup in a trace that ends with one more request. *)
Lemma lookup_record_sent s1 q i r :
  sent (record_sent s1 q) !! i = Some r ->
  sent s1 !! i = Some r \/ (i = length (sent s1) /\ r = q).
Proof.
  cbn. intros [Hl|[Hle Hl]]%lookup_app_Some; [by left|right].
  destruct (i - length (sent s1))%nat as [|n] eqn:E; cbn in Hl; [|done].
  split; [lia|by simplify_eq].
Qed.

Lemma control_device_failed_post w s name act lv mode temp :
  failed_post_ends_run "Device control" w s
    (Core.control_device name act lv mode temp w s).
Proof.
  intros i r e Hi Hl Hpost Hfail.
  pose proof (session_requests_are_get w s i r Hi) as Hget.
  destruct (Core.ensure_session w s) as [[[]|e0] s1] eqn:Hs; cbn [snd] in Hget.
  - destruct (devices (config (self s)) !! name) as [d|] eqn:Hd.
    + rewrite (control_device_run _ _ _ _ _ _ _ _ _ Hs Hd) in Hl |- *.
      destruct (Core.command d act lv mode temp) as [[method params]|e1].
      * cbn [fst snd] in Hl |- *.
        apply lookup_record_sent in Hl as [Hl|[-> ->]];
          [specialize (Hget Hl); congruence|].
        split; [exact Hfail|]. cbn. rewrite length_app. cbn. lia.
      * cbn [snd] in Hl. specialize (Hget Hl). congruence.
    + rewrite (control_device_unknown _ _ _ _ _ _ _ _ Hs Hd) in Hl.
      cbn [snd] in Hl. specialize (Hget Hl). congruence.
  - rewrite (control_device_stops _ _ _ _ _ _ _ _ _ Hs) in Hl.
    cbn [snd] in Hl. specialize (Hget Hl). congruence.
Qed.

Lemma read_device_status_failed_post w s name :
  failed_post_ends_run "Device status read" w s
    (Core.read_device_status name w s).
Proof.
  intros i r e Hi Hl Hpost Hfail.
  pose proof (session_requests_are_get w s i r Hi) as Hget.
  destruct (Core.ensure_session w s) as [[[]|e0] s1] eqn:Hs; cbn [snd] in Hget.
  - destruct (devices (config (self s)) !! name) as [d|] eqn:Hd.
    + rewrite (read_device_status_by_type _ _ _ _ _ Hs Hd) in Hl |- *.
      destruct (String.eqb (type d) "DIMMER");
        [|destruct (String.eqb (type d) "SWITCH")].
      * destruct (rpc_result _ (gateway w (length (sent s1)) _))
          as [j1|e1] eqn:H1.
        -- cbn [fst snd] in Hl |- *.
           apply lookup_record_sent in Hl as [Hl|[-> ->]].
           ++ apply lookup_record_sent in Hl as [Hl|[-> ->]];
                [specialize (Hget Hl); congruence|congruence].
           ++ rewrite Hfail. split; [done|].
              cbn. rewrite !length_app. cbn. lia.
        -- cbn [fst snd] in Hl |- *.
           apply lookup_record_sent in Hl as [Hl|[-> ->]];
             [specialize (Hget Hl); congruence|].
           split; [congruence|]. cbn. rewrite length_app. cbn. lia.
      * cbn [fst snd] in Hl |- *.
        apply lookup_record_sent in Hl as [Hl|[-> ->]];
          [specialize (Hget Hl); congruence|].
        rewrite Hfail. split; [done|]. cbn. rewrite length_app. cbn. lia.
      * cbn [snd] in Hl. specialize (Hget Hl). congruence.
    + rewrite (read_device_status_unknown _ _ _ _ Hs Hd) in Hl.
      cbn [snd] in Hl. specialize (Hget Hl). congruence.
  - rewrite (read_device_status_stops _ _ _ _ _ Hs) in Hl.
    cbn [snd] in Hl. specialize (Hget Hl). congruence.
Qed.

Lemma failed_post_surfaced what w s out (routed : Result Json * State) :
  failed_post_ends_run what w s out ->
  snd routed = snd out ->
  (forall code detail,
     fst out = Raise (HTTPException code detail) ->
     fst routed = Raise (HTTPException code detail)) ->
  upstream_status_surfaced w s routed.
Proof.
  intros Hends Hsnd Hfst i r Hi Hl Hpost. rewrite Hsnd in Hl |- *.
  specialize (Hends i r). unfold rpc_result in Hends.
  destruct (gateway w i r) as [resp|msg].
  - intros Hne. apply Z.eqb_neq in Hne. rewrite Hne in Hends.
    destruct (Hends _ Hi Hl Hpost eq_refl) as [He Hlast].
    by rewrite (Hfst _ _ He).
  - destruct (Hends _ Hi Hl Hpost eq_refl) as [He Hlast].
    by rewrite (Hfst _ _ He).
Qed.

(** C2, as the code has it.  For every RPC POST that a [control_device] or
    [device_status] call sends: when the gateway answered it with a status
    other than 200, the call ended with that request and the caller gets the
    gateway's status; when the POST did not get through, the call ended with
    that request and the caller gets 500. *)
Theorem rpc_failure_status w s dc name :
  upstream_status_surfaced w s (control_device dc w s)
  /\ upstream_status_surfaced w s (get_device_status name w s).
Proof.
  split.
  - eapply failed_post_surfaced;
      [apply (control_device_failed_post w s (device_name dc) (action dc)
                (level dc) (ac_mode dc) (temperature dc))| |];
      rewrite control_device_route;
      destruct (Core.control_device _ _ _ _ _ w s) as [[j|[]] s'];
      cbn; intros; congruence.
  - eapply failed_post_surfaced;
      [apply (read_device_status_failed_post w s name)| |];
      rewrite get_device_status_route;
      destruct (Core.read_device_status _ w s) as [[j|[]] s'];
      cbn; intros; congruence.
Qed.

Lemma rpc_failure_status_witness :
  let w := Sample.scripted [Sample.ok JNull; Sample.status 503; Sample.ok JNull] in
  let dc := mkDeviceControl "HallSwitch" "on" None None None in
  (http_status (fst (control_device dc w Sample.start)) = 503
   /\ length (sent (snd (control_device dc w Sample.start))) = 2%nat)
  /\ (http_status (fst (get_device_status "LivingRoomLamp" w Sample.start)) = 503
      /\ length (sent (snd (get_device_status "LivingRoomLamp" w Sample.start)))
         = 2%nat).
Proof.
  intros w dc. split.
  - refine (proj1 (rpc_failure_status w Sample.start dc "LivingRoomLamp") 1%nat
              (rpc_request Sample.backend "RPC_ZCL_Set_OnOffTog"
                 (JObj [("entity", JStr "E2"); ("action", JInt 1)]) 1700000000)
              _ eq_refl eq_refl _); [cbn; lia|discriminate].
  - refine (proj2 (rpc_failure_status w Sample.start dc "LivingRoomLamp") 1%nat
              (rpc_request Sample.backend "RPC_ZCL_Get_OnOff"
                 (JObj [("entity", JStr "E1")]) 1700000000)
              _ eq_refl eq_refl _); [cbn; lia|discriminate].
Defined.

(** C2 as stated fails: a 503 from the gateway reaches the caller as 503. *)
Lemma gateway_status_not_500 :
  ~ (forall w s dc tr r resp,
       sent (snd (control_device dc w s)) = tr ++ [r] ->
       verb r = POST ->
       gateway w (length tr) r = Responded resp ->
       status_code resp <> 200 ->
       http_status (fst (control_device dc w s)) = 500).
Proof.
  intros H.
  specialize (H (Sample.scripted [Sample.ok JNull; Sample.status 503])
                Sample.start
                (mkDeviceControl "HallSwitch" "on" None None None)
                [probe_request Sample.backend]
                (rpc_request Sample.backend "RPC_ZCL_Set_OnOffTog"
                   (JObj [("entity", JStr "E2"); ("action", JInt 1)]) 1700000000)
                (mkResponse 503 ∅ (Decoded JNull))
                eq_refl eq_refl eq_refl).
  cbn in H. specialize (H ltac:(discriminate)). discriminate H.
Qed.

(** * Further properties of the backend *)

Example b64decode_admin : b64decode "YWRtaW46YWRtaW4=" = Some "admin:admin".
Proof. reflexivity. Qed.

Example b64decode_padding :
  b64decode "YQ==" = Some "a" /\ b64decode "YWI=" = Some "ab"
  /\ b64decode "TWFu" = Some "Man" /\ b64decode "TWFuTQ==" = Some "ManM".
Proof. repeat split. Qed.

(** ** Switching on and off *)

(** X1.  On a DIMMER and on a SWITCH alike, [on] and [off] send one
    RPC_ZCL_Set_OnOffTog request with the device's entity and action 1 for
    [on], 0 for [off]; level, mode and temperature play no part. *)
Theorem toggle_on_off w s s1 name d act lv mode temp :
  Core.ensure_session w s = (Ok tt, s1) ->
  devices (config (self s)) !! name = Some d ->
  type d = "DIMMER" \/ type d = "SWITCH" ->
  act = "on" \/ act = "off" ->
  let r := rpc_request (self s1) "RPC_ZCL_Set_OnOffTog"
             (JObj [("entity", entity d);
                    ("action", JInt (if String.eqb act "on" then 1 else 0))])
             (clock w (length (sent s1))) in
  Core.control_device name act lv mode temp w s
  = (rpc_result "Device control" (gateway w (length (sent s1)) r),
     record_sent s1 r)
  /\ request_method r = Some (JStr "RPC_ZCL_Set_OnOffTog")
  /\ rpc_param "entity" r = Some (entity d)
  /\ rpc_param "action" r = Some (JInt (if String.eqb act "on" then 1 else 0))
  /\ verb r = POST.
Proof.
  intros Hs Hd Ht Hact r. split; [|by repeat split].
  rewrite (control_device_run _ _ _ _ _ _ _ _ _ Hs Hd). subst r.
  unfold Core.command.
  destruct Ht as [-> | ->], Hact as [-> | ->]; reflexivity.
Qed.

Lemma toggle_on_off_witness :
  let w := Sample.scripted [Sample.ok JNull; Sample.ok (JInt 7)] in
  let s1 := record_sent Sample.start (probe_request Sample.backend) in
  Core.control_device "LivingRoomLamp" "off" (Some 3) (Some "cool") None w
    Sample.start
  = (Ok (JInt 7),
     record_sent s1
       (rpc_request Sample.backend "RPC_ZCL_Set_OnOffTog"
          (JObj [("entity", JStr "E1"); ("action", JInt 0)]) 1700000000)).
Proof.
  intros w s1.
  apply (toggle_on_off w Sample.start s1 "LivingRoomLamp" Sample.lamp "off");
    [reflexivity | reflexivity | by left | by right].
Defined.

(** X2.  A DIMMER accepts on, off and dim only, a SWITCH on and off only:
    any other action raises 400 "Invalid action for DIMMER" / "... SWITCH"
    and nothing is sent. *)
Theorem invalid_action_rejected w s s1 name d act lv mode temp :
  Core.ensure_session w s = (Ok tt, s1) ->
  devices (config (self s)) !! name = Some d ->
  act <> "on" -> act <> "off" ->
  (type d = "DIMMER" /\ act <> "dim") \/ type d = "SWITCH" ->
  Core.control_device name act lv mode temp w s
  = (Raise (HTTPException 400 ("Invalid action for " +:+ type d)), s1)
  /\ http_status
       (fst (control_device (mkDeviceControl name act lv mode temp) w s))
     = 400.
Proof.
  intros Hs Hd Hon Hoff Ht.
  assert (H : Core.control_device name act lv mode temp w s
              = (Raise (HTTPException 400 ("Invalid action for " +:+ type d)), s1)).
  { rewrite (control_device_run _ _ _ _ _ _ _ _ _ Hs Hd).
    unfold Core.command.
    destruct Ht as [[-> Hdim] | ->]; cbn;
      rewrite (eqb_ne act "on"), (eqb_ne act "off"), ?(eqb_ne act "dim")
        by assumption; reflexivity. }
  split; [exact H|].
  rewrite control_device_route. cbn [device_name action level ac_mode temperature].
  by rewrite H.
Qed.

Lemma invalid_action_rejected_witness :
  let w := Sample.scripted [Sample.ok JNull; Sample.ok JNull] in
  let s1 := record_sent Sample.start (probe_request Sample.backend) in
  Core.control_device "HallSwitch" "dim" (Some 50) None None w Sample.start
  = (Raise (HTTPException 400 "Invalid action for SWITCH"), s1)
  /\ Core.control_device "LivingRoomLamp" "set_mode" None (Some "cool") None w
       Sample.start
     = (Raise (HTTPException 400 "Invalid action for DIMMER"), s1).
Proof.
  intros w s1. split.
  - apply (invalid_action_rejected w Sample.start s1 "HallSwitch" Sample.hall
             "dim" (Some 50) None None);
      [reflexivity | reflexivity | discriminate | discriminate | by right].
  - apply (invalid_action_rejected w Sample.start s1 "LivingRoomLamp" Sample.lamp
             "set_mode" None (Some "cool") None);
      [reflexivity | reflexivity | discriminate | discriminate
      | left; split; [reflexivity | discriminate]].
Defined.

(** ** AC: the IR table *)

(** X3.  When the entry the AC branch looks up (power_on, power_off,
    cool_mode, heat_mode or temp_<value>) is in the device's IR table, the
    RPC_ZCL_Send_IR_Code request carries exactly that code, with index 1,
    repeat 0 and codeType 0. *)
Theorem ac_sends_table_code w s s1 name d act lv mode temp key table code :
  Core.ensure_session w s = (Ok tt, s1) ->
  devices (config (self s)) !! name = Some d ->
  type d = "AC" ->
  ir_codes d = Some table ->
  ir_key act mode temp key ->
  table !! key = Some code ->
  let r := rpc_request (self s1) "RPC_ZCL_Send_IR_Code" (Core.ir_params d code)
             (clock w (length (sent s1))) in
  Core.control_device name act lv mode temp w s
  = (rpc_result "Device control" (gateway w (length (sent s1)) r),
     record_sent s1 r)
  /\ rpc_param "irCode" r = Some (JList (map JInt code))
  /\ rpc_param "index" r = Some (JInt 1)
  /\ rpc_param "repeat" r = Some (JInt 0)
  /\ rpc_param "codeType" r = Some (JInt 0)
  /\ rpc_param "entity" r = Some (entity d)
  /\ request_method r = Some (JStr "RPC_ZCL_Send_IR_Code")
  /\ verb r = POST.
Proof.
  intros Hs Hd Ht Hi Hkey Hcode r.
  split; [|by repeat split].
  rewrite (control_device_run _ _ _ _ _ _ _ _ _ Hs Hd).
  unfold Core.command, Core.ir_code_of, Core.ir_code_get. rewrite Ht.
  destruct Hkey; cbn; rewrite Hi, Hcode; reflexivity.
Qed.

Lemma ac_sends_table_code_witness :
  let w := Sample.scripted [Sample.ok JNull; Sample.ok JNull] in
  let s1 := record_sent Sample.start (probe_request Sample.backend) in
  snd (Core.control_device "Aircon" "set_temperature" None None (Some 24) w
         Sample.start)
  = record_sent s1
      (rpc_request Sample.backend "RPC_ZCL_Send_IR_Code"
         (JObj [("entity", JStr "E3"); ("index", JInt 1); ("repeat", JInt 0);
                ("codeType", JInt 0); ("irCode", JList [JInt 6])]) 1700000000).
Proof.
  intros w s1.
  destruct (ac_sends_table_code w Sample.start s1 "Aircon" Sample.aircon
              "set_temperature" None None (Some 24) "temp_24"
              (default ∅ (ir_codes Sample.aircon)) [6])
    as [H _];
    [reflexivity | reflexivity | reflexivity | reflexivity
    | exact (ir_key_temp None 24) | reflexivity |].
  by rewrite H.
Defined.

(** X4.  [set_mode] with mode cool or heat reads the IR table with a
    subscript, unlike [set_temperature]: when cool_mode / heat_mode is not in
    the table the call raises the [KeyError], nothing is sent, and the route
    answers 500. *)
Theorem ac_mode_code_missing w s s1 name d lv mode temp table key :
  Core.ensure_session w s = (Ok tt, s1) ->
  devices (config (self s)) !! name = Some d ->
  type d = "AC" ->
  ir_codes d = Some table ->
  (mode = "cool" /\ key = "cool_mode") \/ (mode = "heat" /\ key = "heat_mode") ->
  table !! key = None ->
  Core.control_device name "set_mode" lv (Some mode) temp w s
  = (Raise (KeyError key), s1)
  /\ control_device (mkDeviceControl name "set_mode" lv (Some mode) temp) w s
     = (Raise (HTTPException 500 ("'" +:+ key +:+ "'")), s1).
Proof.
  intros Hs Hd Ht Hi Hmode Hn.
  assert (H : Core.control_device name "set_mode" lv (Some mode) temp w s
              = (Raise (KeyError key), s1)).
  { rewrite (control_device_run _ _ _ _ _ _ _ _ _ Hs Hd).
    unfold Core.command, Core.ir_code_of. rewrite Ht.
    destruct Hmode as [[-> ->]|[-> ->]]; cbn; rewrite Hi, Hn; reflexivity. }
  split; [exact H|].
  rewrite control_device_route. cbn [device_name action level ac_mode temperature].
  by rewrite H.
Qed.

Lemma ac_mode_code_missing_witness :
  let w := Sample.scripted [Sample.ok JNull; Sample.ok JNull] in
  let s1 := record_sent Sample.start (probe_request Sample.backend) in
  control_device (mkDeviceControl "Aircon" "set_mode" None (Some "heat") None) w
    Sample.start
  = (Raise (HTTPException 500 "'heat_mode'"), s1).
Proof.
  intros w s1.
  eapply (ac_mode_code_missing w Sample.start s1 "Aircon" Sample.aircon None
            "heat" None _ "heat_mode");
    [reflexivity | reflexivity | reflexivity | reflexivity | by right | reflexivity].
Defined.

(** X5.  [set_temperature] without a temperature reads no table at all: the
    request goes out with an empty irCode, also for a device that has no IR
    table. *)
Theorem ac_temperature_omitted w s s1 name d lv mode :
  Core.ensure_session w s = (Ok tt, s1) ->
  devices (config (self s)) !! name = Some d ->
  type d = "AC" ->
  let r := rpc_request (self s1) "RPC_ZCL_Send_IR_Code" (Core.ir_params d [])
             (clock w (length (sent s1))) in
  Core.control_device name "set_temperature" lv mode None w s
  = (rpc_result "Device control" (gateway w (length (sent s1)) r),
     record_sent s1 r)
  /\ rpc_param "irCode" r = Some (JList [])
  /\ request_method r = Some (JStr "RPC_ZCL_Send_IR_Code")
  /\ verb r = POST.
Proof.
  intros Hs Hd Ht r. split; [|by repeat split].
  rewrite (control_device_run _ _ _ _ _ _ _ _ _ Hs Hd).
  unfold Core.command. by rewrite Ht.
Qed.

Lemma ac_temperature_omitted_witness :
  let w := Sample.scripted [Sample.ok JNull; Sample.ok (JInt 0)] in
  let s1 := record_sent Sample.start (probe_request Sample.backend) in
  Core.control_device "Aircon" "set_temperature" None None None w Sample.start
  = (Ok (JInt 0),
     record_sent s1
       (rpc_request Sample.backend "RPC_ZCL_Send_IR_Code"
          (Core.ir_params Sample.aircon []) 1700000000)).
Proof.
  intros w s1.
  apply (ac_temperature_omitted w Sample.start s1 "Aircon" Sample.aircon);
    reflexivity.
Defined.

(** ** Devices the operations refuse *)

(** X6.  [control_device] on a device whose type is none of DIMMER, SWITCH
    and AC (the comparison is exact, so "dimmer" is such a type) raises 400
    "Unsupported device type" whatever the action, and sends nothing. *)
Theorem unsupported_device_type w s s1 name d act lv mode temp :
  Core.ensure_session w s = (Ok tt, s1) ->
  devices (config (self s)) !! name = Some d ->
  type d <> "DIMMER" -> type d <> "SWITCH" -> type d <> "AC" ->
  Core.control_device name act lv mode temp w s
  = (Raise (HTTPException 400 "Unsupported device type"), s1).
Proof.
  intros Hs Hd H1 H2 H3.
  rewrite (control_device_run _ _ _ _ _ _ _ _ _ Hs Hd).
  unfold Core.command.
  by rewrite (eqb_ne _ _ H1), (eqb_ne _ _ H2), (eqb_ne _ _ H3).
Qed.

Lemma unsupported_device_type_witness :
  let w := Sample.scripted [Sample.ok JNull; Sample.ok JNull] in
  Core.control_device "StudyBlind" "on" None None None w Sample.start
  = (Raise (HTTPException 400 "Unsupported device type"),
     record_sent Sample.start (probe_request Sample.backend)).
Proof.
  intros w.
  apply (unsupported_device_type w Sample.start _ "StudyBlind" Sample.blind);
    (reflexivity || discriminate).
Defined.

(** X7.  The device name is looked up after the session phase: for a name
    that is not configured both operations raise 404 "Device <name> not found
    in configuration" and send no RPC request, but the probe has gone out. *)
Theorem unknown_device w s s1 name act lv mode temp :
  Core.ensure_session w s = (Ok tt, s1) ->
  devices (config (self s)) !! name = None ->
  let e := HTTPException 404
             ("Device " +:+ name +:+ " not found in configuration") in
  Core.control_device name act lv mode temp w s = (Raise e, s1)
  /\ Core.read_device_status name w s = (Raise e, s1)
  /\ http_status
       (fst (control_device (mkDeviceControl name act lv mode temp) w s)) = 404
  /\ http_status (fst (get_device_status name w s)) = 404
  /\ exists more, sent s1 = sent s ++ probe_request (self s) :: more.
Proof.
  intros Hs Hd e.
  pose proof (control_device_unknown w s s1 name act lv mode temp Hs Hd) as Hc.
  pose proof (read_device_status_unknown w s s1 name Hs Hd) as Hr.
  split; [exact Hc|]. split; [exact Hr|]. split; [|split].
  - rewrite control_device_route.
    cbn [device_name action level ac_mode temperature]. by rewrite Hc.
  - rewrite get_device_status_route. by rewrite Hr.
  - pose proof (ensure_session_sends w s) as H. rewrite Hs in H. eauto.
Qed.

Lemma unknown_device_witness :
  let w := Sample.scripted [Sample.ok JNull; Sample.ok JNull] in
  Core.read_device_status "Garage" w Sample.start
  = (Raise (HTTPException 404 "Device Garage not found in configuration"),
     record_sent Sample.start (probe_request Sample.backend)).
Proof.
  intros w.
  apply (unknown_device w Sample.start _ "Garage" "on" None None None);
    reflexivity.
Defined.

(** ** The session phase and the operation *)

(** X8.  When the probe says "invalid" and the login fails, both operations
    end with the error of the login (401 "Login failed", or 500 "Login request
    failed: ..."); the object and the file are as before and only the probe
    and the login request were sent: no RPC request goes out with the stale
    cookie, and nothing is retried. *)
Theorem failed_login_stops_operation w s e s' name act lv mode temp :
  probe_answer w s = false ->
  Core.login w (record_sent s (probe_request (self s))) = (Raise e, s') ->
  Core.control_device name act lv mode temp w s = (Raise e, s')
  /\ Core.read_device_status name w s = (Raise e, s')
  /\ self s' = self s /\ disk s' = disk s
  /\ sent s' = sent s ++ [probe_request (self s); login_request (self s)]
  /\ (e = HTTPException 401 "Login failed"
      \/ exists msg, e = HTTPException 500 ("Login request failed: " +:+ msg)).
Proof.
  intros Hp Hl.
  assert (Hs : Core.ensure_session w s = (Raise e, s')).
  { by rewrite ensure_session_run, Hp. }
  split; [by apply control_device_stops|].
  split; [by apply read_device_status_stops|].
  rewrite login_run in Hl. cbn [record_sent self sent disk] in Hl.
  change (login_request (self (record_sent s (probe_request (self s)))))
    with (login_request (self s)) in Hl.
  destruct (gateway w _ _) as [resp|msg];
    [destruct (Z.eqb (status_code resp) 200); [done|]|];
    injection Hl as <- <-; cbn; rewrite <- app_assoc; eauto 10.
Qed.

Lemma failed_login_stops_operation_witness :
  let w := Sample.scripted [Sample.status 401; Sample.status 403; Sample.ok JNull] in
  Core.control_device "HallSwitch" "on" None None None w Sample.start
  = (Raise (HTTPException 401 "Login failed"),
     mkState Sample.backend Sample.cfg
       [probe_request Sample.backend; login_request Sample.backend]).
Proof.
  intros w.
  apply (failed_login_stops_operation w Sample.start _ _ "HallSwitch" "on"
           None None None); reflexivity.
Defined.

(** X9.  When the probe says "invalid" and the login answer has status 200,
    the RPC request of the same call carries the cookie just received (the
    empty string when the answer had none), and that cookie is in the object
    and in the file afterwards. *)
Theorem fresh_cookie_is_used w s d resp name act lv mode temp method params :
  probe_answer w s = false ->
  gateway w (S (length (sent s))) (login_request (self s)) = Responded resp ->
  status_code resp = 200 ->
  devices (config (self s)) !! name = Some d ->
  Core.command d act lv mode temp = Ok (method, params) ->
  let c := default "" (cookies resp !! "user_id") in
  let s' := snd (Core.control_device name act lv mode temp w s) in
  exists r,
    new_requests s s' = [probe_request (self s); login_request (self s); r]
    /\ verb r = POST
    /\ headers r
       = ("Cookie", "user_id=" +:+ c) :: ("Content-Type", "application/json")
         :: Core.get_auth_header (self s)
    /\ cookie (self s') = c
    /\ cfg_cookie (disk s') = Some c.
Proof.
  intros Hp Hg Hst Hd Hc c s'.
  assert (Hs : Core.ensure_session w s
               = (Ok tt, logged_in (record_sent s (probe_request (self s))) resp)).
  { rewrite ensure_session_run, Hp, login_run. cbn [record_sent self sent].
    rewrite length_app, Nat.add_1_r.
    change (login_request (self (record_sent s (probe_request (self s)))))
      with (login_request (self s)).
    by rewrite Hg, Hst. }
  subst s'. rewrite (control_device_run _ _ _ _ _ _ _ _ _ Hs Hd), Hc.
  eexists. split.
  - unfold new_requests. cbn. rewrite <- !app_assoc. by rewrite drop_app_length.
  - by repeat split.
Qed.

Lemma fresh_cookie_is_used_witness :
  let w := Sample.scripted
             [Sample.status 401; Sample.fresh_cookie "abc123"; Sample.ok JNull] in
  let s' := snd (Core.control_device "HallSwitch" "on" None None None w
                   Sample.start) in
  exists r,
    new_requests Sample.start s'
    = [probe_request Sample.backend; login_request Sample.backend; r]
    /\ verb r = POST
    /\ headers r
       = [("Cookie", "user_id=abc123"); ("Content-Type", "application/json");
          ("Authorization", "Basic YWRtaW46YWRtaW4=")]
    /\ cookie (self s') = "abc123"
    /\ cfg_cookie (disk s') = Some "abc123".
Proof.
  intros w s'.
  exact (fresh_cookie_is_used w Sample.start Sample.hall
           (mkResponse 200 (<["user_id" := "abc123"]> ∅) (Decoded JNull))
           "HallSwitch" "on" None None None "RPC_ZCL_Set_OnOffTog"
           (JObj [("entity", JStr "E2"); ("action", JInt 1)])
           eq_refl eq_refl eq_refl eq_refl eq_refl).
Defined.

(** X10.  With a cookie the probe accepts, an operation writes nothing: the
    object and the file are the same afterwards, whatever the gateway answers
    to the RPC requests. *)
Theorem valid_cookie_changes_nothing w s name act lv mode temp :
  probe_answer w s = true ->
  let s1 := snd (Core.control_device name act lv mode temp w s) in
  let s2 := snd (Core.read_device_status name w s) in
  self s1 = self s /\ disk s1 = disk s /\ self s2 = self s /\ disk s2 = disk s.
Proof.
  intros Hp.
  assert (Hs : Core.ensure_session w s
               = (Ok tt, record_sent s (probe_request (self s)))).
  { by rewrite ensure_session_run, Hp. }
  cbn zeta. destruct (devices (config (self s)) !! name) as [d|] eqn:Hd.
  - rewrite (control_device_run _ _ _ _ _ _ _ _ _ Hs Hd).
    rewrite (read_device_status_by_type _ _ _ _ _ Hs Hd).
    split; [|split; [|split]].
    + by destruct (Core.command d act lv mode temp) as [[m p]|e].
    + by destruct (Core.command d act lv mode temp) as [[m p]|e].
    + destruct (String.eqb (type d) "DIMMER");
        [by destruct (rpc_result _ _)|].
      by destruct (String.eqb (type d) "SWITCH").
    + destruct (String.eqb (type d) "DIMMER");
        [by destruct (rpc_result _ _)|].
      by destruct (String.eqb (type d) "SWITCH").
  - rewrite (control_device_unknown _ _ _ _ _ _ _ _ Hs Hd).
    by rewrite (read_device_status_unknown _ _ _ _ Hs Hd).
Qed.

Lemma valid_cookie_changes_nothing_witness :
  let w := Sample.scripted [Sample.ok JNull; Sample.status 503] in
  let s1 := snd (Core.control_device "HallSwitch" "on" None None None w
                   Sample.start) in
  self s1 = Sample.backend /\ disk s1 = Sample.cfg.
Proof.
  intros w s1.
  destruct (valid_cookie_changes_nothing w Sample.start "HallSwitch" "on"
              None None None eq_refl) as (H1 & H2 & _).
  by split.
Defined.

(** X11.  When the gateway answers the RPC request of [control_device] with
    status 200: a body that is a JSON object is returned as it is under
    "result" next to "status": "success", and the endpoint answers 200; for a
    JSON body of another shape the route function returns the same way, but
    the response model, whose result is a dict, refuses the value and the
    endpoint answers 500; a body that is not JSON makes the call fail with
    500 "Device control request failed: ...". *)
Theorem gateway_answer_is_returned w s s1 name d act lv mode temp
    method params resp :
  Core.ensure_session w s = (Ok tt, s1) ->
  devices (config (self s)) !! name = Some d ->
  Core.command d act lv mode temp = Ok (method, params) ->
  let r := rpc_request (self s1) method params (clock w (length (sent s1))) in
  gateway w (length (sent s1)) r = Responded resp ->
  status_code resp = 200 ->
  let out := control_device (mkDeviceControl name act lv mode temp) w s in
  snd out = record_sent s1 r
  /\ match body resp with
     | Decoded (JObj fields) =>
         fst out
         = Ok (JObj [("status", JStr "success"); ("result", JObj fields)])
         /\ endpoint_status (fst out) = 200
     | Decoded j =>
         fst out = Ok (JObj [("status", JStr "success"); ("result", j)])
         /\ endpoint_status (fst out) = 500
     | Undecodable msg =>
         fst out
         = Raise (HTTPException 500 ("Device control request failed: " +:+ msg))
         /\ endpoint_status (fst out) = 500
     end.
Proof.
  intros Hs Hd Hc r Hg Hst out. subst out.
  rewrite control_device_route. cbn [device_name action level ac_mode temperature].
  rewrite (control_device_run _ _ _ _ _ _ _ _ _ Hs Hd), Hc. cbn zeta. fold r.
  rewrite Hg. unfold rpc_result. rewrite Hst. cbn.
  destruct (body resp) as [[]|]; by repeat split.
Qed.

Lemma gateway_answer_is_returned_witness :
  let dc := mkDeviceControl "HallSwitch" "on" None None None in
  let object := Sample.scripted [Sample.ok JNull; Sample.ok (JObj [("rc", JInt 0)])] in
  let array := Sample.scripted [Sample.ok JNull; Sample.ok (JList [JInt 1; JNull])] in
  (fst (control_device dc object Sample.start)
   = Ok (JObj [("status", JStr "success"); ("result", JObj [("rc", JInt 0)])])
   /\ endpoint_status (fst (control_device dc object Sample.start)) = 200)
  /\ endpoint_status (fst (control_device dc array Sample.start)) = 500.
Proof.
  intros dc object array. split.
  - exact (proj2 (gateway_answer_is_returned object Sample.start
                    (record_sent Sample.start (probe_request Sample.backend))
                    "HallSwitch" Sample.hall "on" None None None
                    "RPC_ZCL_Set_OnOffTog"
                    (JObj [("entity", JStr "E2"); ("action", JInt 1)])
                    (mkResponse 200 ∅ (Decoded (JObj [("rc", JInt 0)])))
                    eq_refl eq_refl eq_refl eq_refl eq_refl)).
  - exact (proj2 (proj2 (gateway_answer_is_returned array Sample.start
                    (record_sent Sample.start (probe_request Sample.backend))
                    "HallSwitch" Sample.hall "on" None None None
                    "RPC_ZCL_Set_OnOffTog"
                    (JObj [("entity", JStr "E2"); ("action", JInt 1)])
                    (mkResponse 200 ∅ (Decoded (JList [JInt 1; JNull])))
                    eq_refl eq_refl eq_refl eq_refl eq_refl))).
Defined.

(** ** What an operation writes *)

Lemma ensure_session_writes w s :
  cookie_write_only s (snd (Core.ensure_session w s)).
Proof.
  rewrite ensure_session_run. destruct (probe_answer w s); [by left|].
  rewrite login_run.
  destruct (gateway w _ _) as [resp|msg];
    [destruct (Z.eqb (status_code resp) 200)|]; [|by left..].
  right. by eexists.
Qed.

Lemma control_device_keeps w s name act lv mode temp :
  let s1 := snd (Core.ensure_session w s) in
  let s' := snd (Core.control_device name act lv mode temp w s) in
  self s' = self s1 /\ disk s' = disk s1.
Proof.
  cbn zeta. destruct (Core.ensure_session w s) as [[[]|e] s1] eqn:Hs; cbn [snd].
  - destruct (devices (config (self s)) !! name) as [d|] eqn:Hd.
    + rewrite (control_device_run _ _ _ _ _ _ _ _ _ Hs Hd).
      by destruct (Core.command d act lv mode temp) as [[m p]|e].
    + by rewrite (control_device_unknown _ _ _ _ _ _ _ _ Hs Hd).
  - by rewrite (control_device_stops _ _ _ _ _ _ _ _ _ Hs).
Qed.

Lemma read_device_status_keeps w s name :
  let s1 := snd (Core.ensure_session w s) in
  let s' := snd (Core.read_device_status name w s) in
  self s' = self s1 /\ disk s' = disk s1.
Proof.
  cbn zeta. destruct (Core.ensure_session w s) as [[[]|e] s1] eqn:Hs; cbn [snd].
  - destruct (devices (config (self s)) !! name) as [d|] eqn:Hd.
    + rewrite (read_device_status_by_type _ _ _ _ _ Hs Hd).
      destruct (String.eqb (type d) "DIMMER");
        [by destruct (rpc_result _ _)|].
      by destruct (String.eqb (type d) "SWITCH").
    + by rewrite (read_device_status_unknown _ _ _ _ Hs Hd).
  - by rewrite (read_device_status_stops _ _ _ _ _ Hs).
Qed.

Lemma cookie_write_only_fixed s s' :
  cookie_write_only s s' ->
  fixed_part (config (self s')) = fixed_part (config (self s))
  /\ base_url (self s') = base_url (self s)
  /\ username (self s') = username (self s)
  /\ password (self s') = password (self s)
  /\ config_file (self s') = config_file (self s).
Proof. intros [[-> _]|(c & -> & _)]; by repeat split. Qed.

Lemma control_device_writes w s name act lv mode temp :
  cookie_write_only s (snd (Core.control_device name act lv mode temp w s)).
Proof.
  pose proof (ensure_session_writes w s) as Hw.
  destruct (control_device_keeps w s name act lv mode temp) as [H1 H2].
  unfold cookie_write_only in *. by rewrite H1, H2.
Qed.

Lemma read_device_status_writes w s name :
  cookie_write_only s (snd (Core.read_device_status name w s)).
Proof.
  pose proof (ensure_session_writes w s) as Hw.
  destruct (read_device_status_keeps w s name) as [H1 H2].
  unfold cookie_write_only in *. by rewrite H1, H2.
Qed.

(** X12.  The only thing [control_device] and [read_device_status] ever write
    is the cookie: afterwards the object and the file are untouched, or the
    object has a new cookie and the file holds the object's configuration.
    The gateway address, the credentials and the device catalogue of the
    object are never changed. *)
Theorem operations_write_cookie_only w s name act lv mode temp :
  let s1 := snd (Core.control_device name act lv mode temp w s) in
  let s2 := snd (Core.read_device_status name w s) in
  (cookie_write_only s s1 /\ cookie_write_only s s2)
  /\ fixed_part (config (self s1)) = fixed_part (config (self s))
  /\ fixed_part (config (self s2)) = fixed_part (config (self s))
  /\ base_url (self s1) = base_url (self s)
  /\ base_url (self s2) = base_url (self s).
Proof.
  cbn zeta.
  pose proof (control_device_writes w s name act lv mode temp) as H1.
  pose proof (read_device_status_writes w s name) as H2.
  destruct (cookie_write_only_fixed _ _ H1) as (? & ? & _).
  destruct (cookie_write_only_fixed _ _ H2) as (? & ? & _).
  by repeat split.
Qed.

Lemma restart_stable_unfold w s :
  restart_stable w s
  <-> self s = {| config_file := config_file (self s);
                  config := disk s;
                  base_url := "http://" +:+ gateway_ip (disk s);
                  cookie := default "" (cfg_cookie (disk s));
                  username := cfg_username (disk s);
                  password := cfg_password (disk s) |}.
Proof.
  unfold restart_stable, Core.init, bind, load_config, set_self.
  destruct s as [b c tr]. cbn. split.
  - by intros [= <-].
  - by intros <-.
Qed.

Lemma restart_stable_step w s s' :
  restart_stable w s -> cookie_write_only s s' -> restart_stable w s'.
Proof.
  rewrite !restart_stable_unfold.
  intros Hs [[-> ->]|(c & Hb & Hd)]; [exact Hs|].
  rewrite Hd, Hb. destruct s as [b dk tr]. cbn in Hs |- *.
  set (file := config_file b) in *. clearbody file. by subst b.
Qed.

(** X13.  [__init__] leaves an object that running [__init__] again would
    not change, and [login], [control_device] and [read_device_status] keep
    it so: at any time a restart loads, from the file, the object as it
    is, cookie included. *)
Theorem restart_loads_current_state w :
  (forall file s, restart_stable w (snd (Core.init file w s)))
  /\ forall s name act lv mode temp,
       restart_stable w s ->
       restart_stable w (snd (Core.login w s))
       /\ restart_stable w (snd (Core.control_device name act lv mode temp w s))
       /\ restart_stable w (snd (Core.read_device_status name w s)).
Proof.
  split.
  - intros file s. by apply restart_stable_unfold.
  - intros s name act lv mode temp Hs.
    pose proof (control_device_writes w s name act lv mode temp) as H1.
    pose proof (read_device_status_writes w s name) as H2.
    split; [|split; by eapply restart_stable_step].
    eapply restart_stable_step; [exact Hs|].
    rewrite login_run.
    destruct (gateway w _ _) as [resp|msg];
      [destruct (Z.eqb (status_code resp) 200)|]; [|by left..].
    right. by eexists.
Qed.

Lemma restart_loads_current_state_witness :
  let w := Sample.scripted
             [Sample.status 401; Sample.fresh_cookie "abc123"; Sample.ok JNull] in
  let s' := snd (Core.control_device "HallSwitch" "on" None None None w
                   Sample.start) in
  Core.init "config.yaml" w s' = (Ok tt, s') /\ cookie (self s') = "abc123".
Proof.
  intros w s'. split; [|reflexivity].
  apply (proj2 (restart_loads_current_state w) Sample.start "HallSwitch" "on"
           None None None).
  reflexivity.
Defined.

(** ** How many requests a call sends *)





(** ** The two validity probes *)

(** X16.  The probe of the stand-alone script sends the same request as the
    probe of the application and returns the same value whenever the gateway
    answers; they differ only when the request does not get through, where
    the application returns False and the script raises. *)
Theorem legacy_probe_agrees w s :
  snd (Legacy.is_cookie_valid w s) = snd (Core.is_cookie_valid w s)
  /\ (forall resp,
        gateway w (length (sent s)) (probe_request (self s)) = Responded resp ->
        Legacy.is_cookie_valid w s = Core.is_cookie_valid w s)
  /\ (forall msg,
        gateway w (length (sent s)) (probe_request (self s))
        = ConnectionFailed msg ->
        fst (Core.is_cookie_valid w s) = Ok false
        /\ fst (Legacy.is_cookie_valid w s) = Raise (RequestException msg)).
Proof.
  rewrite legacy_is_cookie_valid_run, is_cookie_valid_run. unfold probe_answer.
  split; [reflexivity|]. split.
  - by intros resp ->.
  - by intros msg ->.
Qed.

Lemma legacy_probe_agrees_witness :
  Legacy.is_cookie_valid (Sample.scripted [Sample.status 403]) Sample.start
  = Core.is_cookie_valid (Sample.scripted [Sample.status 403]) Sample.start.
Proof.
  exact (proj1 (proj2 (legacy_probe_agrees (Sample.scripted [Sample.status 403])
                         Sample.start))
           (mkResponse 403 ∅ (Decoded JNull)) eq_refl).
Defined.

(** ** What login writes to the file *)

(** X17.  A successful [login] writes the configuration held in memory, with
    the new cookie, over the whole file: whatever the file held before, its
    gateway address, credentials and devices are afterwards those of the
    object. *)
Theorem login_saves_loaded_config w s resp :
  gateway w (length (sent s)) (login_request (self s)) = Responded resp ->
  status_code resp = 200 ->
  let s' := snd (Core.login w s) in
  fixed_part (disk s') = fixed_part (config (self s))
  /\ cfg_cookie (disk s') = Some (default "" (cookies resp !! "user_id"))
  /\ disk s' = config (self s').
Proof.
  intros Hg Hst. cbn zeta. rewrite login_run, Hg, Hst. by cbn.
Qed.

Lemma login_saves_loaded_config_witness :
  let w := Sample.scripted [Sample.fresh_cookie "abc123"] in
  let edited := mkConfig "10.0.0.1" "root" "secret" None ∅ in
  let s' := snd (Core.login w (mkState Sample.backend edited [])) in
  fixed_part (disk s') = fixed_part Sample.cfg
  /\ cfg_cookie (disk s') = Some "abc123".
Proof.
  intros w edited s'.
  destruct (login_saves_loaded_config w (mkState Sample.backend edited [])
              (mkResponse 200 (<["user_id" := "abc123"]> ∅) (Decoded JNull))
              eq_refl eq_refl) as (H1 & H2 & _).
  by split.
Defined.

(** ** The Authorization header *)

Lemma divmod_combine (x y k : N) :
  (y < k -> (x * k + y) / k = x /\ (x * k + y) mod k = y)%N.
Proof.
  intros Hy. split; symmetry.
  - apply (N.div_unique _ _ _ y); lia.
  - apply (N.mod_unique _ _ x); lia.
Qed.

Lemma split_byte (a k m : N) :
  (0 < k -> a < k * m ->
   exists q r, a / k = q /\ a mod k = r /\ a = q * k + r /\ r < k /\ q < m)%N.
Proof.
  intros Hk Ha. exists (a / k)%N, (a mod k)%N.
  split; [done|]. split; [done|].
  pose proof (N.div_mod a k ltac:(lia)). pose proof (N.mod_lt a k ltac:(lia)).
  split; [lia|]. split; [done|]. apply N.Div0.div_lt_upper_bound; lia.
Qed.

(** The four digits of three bytes, and how the bytes come back. *)
Lemma b64_regroup (a b c : N) :
  (a < 256 -> b < 256 -> c < 256 ->
   (a / 4) * 4 + ((a mod 4) * 16 + b / 16) / 16 = a
   /\ (((a mod 4) * 16 + b / 16) mod 16) * 16
      + ((b mod 16) * 4 + c / 64) / 4 = b
   /\ (((b mod 16) * 4 + c / 64) mod 4) * 64 + c mod 64 = c
   /\ a / 4 < 64 /\ (a mod 4) * 16 + b / 16 < 64
   /\ (b mod 16) * 4 + c / 64 < 64 /\ c mod 64 < 64)%N.
Proof.
  intros Ha Hb Hc.
  destruct (split_byte a 4 64) as (qa & ra & -> & -> & Ea & ? & ?); [lia..|].
  destruct (split_byte b 16 16) as (qb & rb & -> & -> & Eb & ? & ?); [lia..|].
  destruct (split_byte c 64 4) as (qc & rc & -> & -> & Ec & ? & ?); [lia..|].
  destruct (divmod_combine ra qb 16) as [-> ->]; [done|].
  destruct (divmod_combine rb qc 4) as [-> ->]; [done|].
  lia.
Qed.

Lemma b64_digit_value (n : N) :
  (n < 64)%N ->
  b64_value (b64_digit n) = Some n /\ Ascii.eqb (b64_digit n) "="%char = false.
Proof.
  intros Hn.
  assert (Hall : Forall (fun k => b64_value (b64_digit (N.of_nat k))
                                  = Some (N.of_nat k)
                                  /\ Ascii.eqb (b64_digit (N.of_nat k)) "="%char
                                     = false) (seq 0 64)).
  { repeat (constructor; [split; reflexivity|]). constructor. }
  rewrite Forall_forall in Hall.
  rewrite <- (N2Nat.id n). apply Hall, elem_of_seq. lia.
Qed.

Lemma b64_groups_cons (bytes : list N) :
  bytes <> [] -> exists c cs, b64_groups bytes = c :: cs.
Proof. destruct bytes as [|a [|b [|c rest]]]; [done|cbn; eauto..]. Qed.

Lemma b64_groups_length (n : nat) : forall bytes,
  (length bytes <= n)%nat ->
  (length bytes <= 3 * length (b64_groups bytes))%nat.
Proof.
  induction n as [|n IH]; intros bytes Hn.
  - destruct bytes; cbn in *; lia.
  - destruct bytes as [|a [|b [|c rest]]]; cbn in *; try lia.
    specialize (IH rest ltac:(lia)). lia.
Qed.

Lemma b64_ungroup_groups (fuel : nat) : forall bytes,
  Forall (fun x => (x < 256)%N) bytes ->
  (length bytes <= 3 * fuel)%nat ->
  b64_ungroup fuel (b64_groups bytes) = Some bytes.
Proof.
  induction fuel as [|fuel IH]; intros bytes Hb Hlen.
  - destruct bytes; [reflexivity|cbn in Hlen; lia].
  - destruct bytes as [|a [|b [|c rest]]]; [reflexivity|..].
    + apply Forall_cons_1 in Hb as [Ha _].
      destruct (b64_regroup a 0 0 Ha) as (E1 & _ & _ & L1 & L2 & _); [lia..|].
      rewrite N.Div0.div_0_l, N.add_0_r in E1, L2.
      destruct (b64_digit_value _ L1) as [V1 _].
      destruct (b64_digit_value _ L2) as [V2 _].
      cbn [b64_groups b64_ungroup]. rewrite V1, V2. cbn. by rewrite E1.
    + apply Forall_cons_1 in Hb as [Ha Hb]. apply Forall_cons_1 in Hb as [Hb _].
      destruct (b64_regroup a b 0 Ha Hb) as (E1 & E2 & _ & L1 & L2 & L3 & _);
        [lia|].
      rewrite N.Div0.div_0_l, N.add_0_r in E2, L3.
      destruct (b64_digit_value _ L1) as [V1 _].
      destruct (b64_digit_value _ L2) as [V2 _].
      destruct (b64_digit_value _ L3) as [V3 P3].
      cbn [b64_groups b64_ungroup]. rewrite V1, V2. cbn [mbind option_bind].
      rewrite P3, V3. cbn. by rewrite E1, E2.
    + apply Forall_cons_1 in Hb as [Ha Hb]. apply Forall_cons_1 in Hb as [Hb Hc].
      apply Forall_cons_1 in Hc as [Hc Hrest].
      destruct (b64_regroup a b c Ha Hb Hc) as (E1 & E2 & E3 & L1 & L2 & L3 & L4).
      destruct (b64_digit_value _ L1) as [V1 _].
      destruct (b64_digit_value _ L2) as [V2 _].
      destruct (b64_digit_value _ L3) as [V3 P3].
      destruct (b64_digit_value _ L4) as [V4 P4].
      cbn [b64_groups]. destruct rest as [|r rest].
      * cbn [b64_groups b64_ungroup]. rewrite V1, V2. cbn [mbind option_bind].
        rewrite P3, V3. cbn [mbind option_bind]. rewrite P4, V4. cbn.
        by rewrite E1, E2, E3.
      * destruct (b64_groups_cons (r :: rest)) as (x & xs & Hx); [done|].
        specialize (IH (r :: rest) Hrest ltac:(cbn in *; lia)).
        rewrite Hx in IH |- *. cbn [b64_ungroup].
        rewrite V1, V2, V3, V4. cbn [mbind option_bind]. rewrite IH. cbn.
        by rewrite E1, E2, E3.
Qed.

Lemma string_of_list_ascii_length (l : list ascii) :
  String.length (string_of_list_ascii l) = length l.
Proof. induction l; cbn; congruence. Qed.

Lemma b64decode_b64encode (s : string) : b64decode (b64encode s) = Some s.
Proof.
  unfold b64decode, b64encode.
  rewrite list_ascii_of_string_of_list_ascii, string_of_list_ascii_length.
  rewrite b64_ungroup_groups.
  - cbn. rewrite map_map.
    rewrite (map_ext _ id) by apply ascii_N_embedding.
    by rewrite map_id, string_of_list_ascii_of_string.
  - apply Forall_forall. intros x Hx. apply list_elem_of_In, in_map_iff in Hx
      as (a & <- & _). apply N_ascii_bounded.
  - pose proof (b64_groups_length _ _ (le_n (length
        (map N_of_ascii (list_ascii_of_string s))))). lia.
Qed.

(** X18.  The Authorization header is "Basic " followed by a token from
    which base64 decoding gives back username:password, byte for byte; so
    two objects send the same header only if these strings are the same. *)
Theorem auth_header_decodes b :
  exists token,
    Core.get_auth_header b = [("Authorization", "Basic " +:+ token)]
    /\ b64decode token = Some (username b +:+ ":" +:+ password b)
    /\ forall b',
         Core.get_auth_header b' = Core.get_auth_header b ->
         username b' +:+ ":" +:+ password b' = username b +:+ ":" +:+ password b.
Proof.
  eexists. split; [reflexivity|]. split; [apply b64decode_b64encode|].
  intros b' [= H].
  change (b64encode (username b' +:+ ":" +:+ password b')
          = b64encode (username b +:+ ":" +:+ password b)) in H.
  apply (f_equal b64decode) in H.
  rewrite !b64decode_b64encode in H. by injection H.
Qed.

(** ** The query loop *)

Lemma jlookup_dict_set k v d : jlookup k (Core.dict_set k v d) = Some v.
Proof.
  induction d as [|[k' v'] d IH]; cbn; [by rewrite String.eqb_refl|].
  destruct (String.eqb k' k) eqn:E; cbn; rewrite ?String.eqb_refl, ?E; done.
Qed.

Lemma jlookup_dict_set_ne k k' v d :
  k' <> k -> jlookup k' (Core.dict_set k v d) = jlookup k' d.
Proof.
  intros Hne. apply not_eq_sym, String.eqb_neq in Hne as Hkk.
  induction d as [|[k0 v0] d IH]; cbn; [by rewrite Hkk|].
  destruct (String.eqb k0 k) eqn:E; cbn.
  - apply String.eqb_eq in E as ->. by rewrite Hkk.
  - by rewrite IH.
Qed.

Lemma rpc_result_raises what o e :
  rpc_result what o = Raise e -> exists code detail, e = HTTPException code detail.
Proof.
  unfold rpc_result. destruct o as [resp|msg]; [|intros [= <-]; eauto].
  destruct (Z.eqb (status_code resp) 200); [|intros [= <-]; eauto].
  destruct (body resp); [done|intros [= <-]; eauto].
Qed.

Lemma query_answer_first w s q :
  query_answer w s 0 q
  = rpc_result "Device status read" (gateway w (length (sent s)) q).
Proof. unfold query_answer. by rewrite Nat.add_0_r. Qed.

Lemma query_answer_shift w s q0 k q :
  query_answer w (record_sent s q0) k q = query_answer w s (S k) q.
Proof.
  unfold query_answer. cbn. rewrite length_app. cbn.
  by replace (length (sent s) + 1 + k)%nat with (length (sent s) + S k)%nat by lia.
Qed.

(** X19.  The query loop, for any list of methods: the queries go out in the
    order of the list, and the object and the file are not written.  Either
    every query was answered with a result: then there is one query per
    method, the loop returns a dict in which each method has the answer to
    its (last) query and entries under other keys are as they were.  Or the
    loop stopped at the first query that failed: the queries before it had a
    result, and the error of that query is what the loop raises. *)
Theorem query_loop_in_order d methods : forall results w s,
  let out := Core.query_loop d (base_url (self s) +:+ "/cgi-bin/rpc_bridge")
               methods results w s in
  self (snd out) = self s /\ disk (snd out) = disk s
  /\ exists qs,
      sent (snd out) = sent s ++ qs
      /\ (request_method <$> qs)
         = ((fun m => Some (JStr m)) <$> take (length qs) methods)
      /\ ((length qs = length methods
           /\ (forall k q, qs !! k = Some q ->
                           exists j, query_answer w s k q = Ok j)
           /\ exists res,
               fst out = Ok res
               /\ (forall k m q j,
                     methods !! k = Some m -> qs !! k = Some q ->
                     query_answer w s k q = Ok j ->
                     m ∉ drop (S k) methods ->
                     jlookup m res = Some j)
               /\ (forall m, m ∈ methods -> is_Some (jlookup m res))
               /\ (forall m, m ∉ methods -> jlookup m res = jlookup m results))
          \/ (exists qs0 q e,
                qs = qs0 ++ [q]
                /\ (forall k q', qs0 !! k = Some q' ->
                                 exists j, query_answer w s k q' = Ok j)
                /\ query_answer w s (length qs0) q = Raise e
                /\ fst out = Raise e
                /\ exists code detail, e = HTTPException code detail)).
Proof.
  induction methods as [|m rest IH]; intros results w s; cbn zeta.
  - cbn. split; [done|]. split; [done|]. exists []. rewrite app_nil_r.
    split; [done|]. split; [done|]. left. split; [done|].
    split; [by intros k q Hk|]. exists results. split; [done|].
    split; [by intros k m q j Hk|]. split; [|done].
    intros m Hm. by apply elem_of_nil in Hm.
  - rewrite query_loop_step.
    destruct (rpc_result _ _) as [j|e] eqn:Hr.
    + pose proof (IH (Core.dict_set m j results) w
                    (record_sent s (status_query w s d m))) as H.
      cbn zeta in H. change (self (record_sent s (status_query w s d m)))
        with (self s) in H.
      destruct H as (Hself & Hdisk & qs & Hsent & Hm & Hcases).
      split; [exact Hself|]. split; [exact Hdisk|].
      exists (status_query w s d m :: qs).
      split; [by rewrite Hsent; cbn; rewrite <- app_assoc|].
      split; [cbn; by rewrite Hm|].
      destruct Hcases as [(Hlen & Hall & res & Hres & Hexact & Hin & Hout)
                         |(qs0 & q & e & -> & Hall & Hlast & Hres & He)].
      * left. split; [cbn; by rewrite Hlen|]. split.
        { intros [|k] q Hq; cbn in Hq.
          - simplify_eq. rewrite query_answer_first. eauto.
          - rewrite <- (query_answer_shift w s (status_query w s d m)). eauto. }
        exists res. split; [exact Hres|]. split; [|split].
        -- intros [|k] m' q j' Hm' Hq Ha Hnot; cbn in Hm', Hq, Hnot.
           ++ simplify_eq. rewrite query_answer_first, Hr in Ha. simplify_eq.
              by rewrite (Hout _ Hnot), jlookup_dict_set.
           ++ rewrite <- (query_answer_shift w s (status_query w s d m)) in Ha. eauto.
        -- intros m' Hm'. destruct (decide (m' ∈ rest)) as [|Hnot]; [by apply Hin|].
           apply elem_of_cons in Hm' as [->|]; [|done].
           rewrite (Hout _ Hnot), jlookup_dict_set. by eexists.
        -- intros m' Hm'. apply not_elem_of_cons in Hm' as [Hne Hnot].
           by rewrite (Hout _ Hnot), jlookup_dict_set_ne.
      * right. exists (status_query w s d m :: qs0), q, e.
        split; [done|]. split.
        { intros [|k] q' Hq; cbn in Hq.
          - simplify_eq. rewrite query_answer_first. eauto.
          - rewrite <- (query_answer_shift w s (status_query w s d m)). eauto. }
        split; [cbn [length];
                by rewrite <- (query_answer_shift w s (status_query w s d m))|].
        by split.
    + cbn. split; [done|]. split; [done|]. exists [status_query w s d m].
      split; [done|]. split; [done|]. right.
      exists [], (status_query w s d m), e. split; [done|].
      split; [by intros k q' Hk|]. rewrite query_answer_first.
      split; [done|]. split; [done|]. by eapply rpc_result_raises.
Qed.

Example query_loop_three_methods :
  let w := Sample.scripted [Sample.ok (JInt 1); Sample.status 502; Sample.ok JNull] in
  let out := Core.query_loop Sample.hall "http://192.168.1.10/cgi-bin/rpc_bridge"
               ["A"; "B"; "C"] [] w Sample.start in
  fst out = Raise (HTTPException 502 "Device status read failed")
  /\ (request_method <$> sent (snd out)) = [Some (JStr "A"); Some (JStr "B")].
Proof. by split. Qed.

(** ** The exceptions that leave the backend *)



